(** * Memey: the trigger controller, asset resolution and volume clamp

    A shallow embedding of the logic of [src/main.py], [src/meme_manager.py],
    [src/audio_player.py] and [src/emotion_detector.py].

    Modelling conventions.
    - Python floats (timestamps, confidences, durations, volumes) are exact
      rationals [Q]; only comparison and subtraction are used by the code.
    - [time.time()] is an input: every place where the source reads the clock
      receives its reading as an argument.
    - Calls into the presentation and audio collaborators are recorded as a
      list of [Effect]s returned next to the new state; console output
      ([print]) is not recorded.
    - A Python [dict] is an insertion-ordered association list, since
      [AudioPlayer.play_emotion_sound] iterates over its keys in order.
    - [random.choice] receives the random draw as a natural number.
    - [str.lower] is modelled on ASCII letters.
    - [DeepFace.analyze], directory listings and the mixer are inputs: what
      the analyser returns or raises, what [iterdir] shows, and which calls
      on [pygame.mixer.music] raise. *)

From Stdlib Require Import QArith Qminmax ZArith String Ascii List Bool Lia Lqa.
From Stdlib Require Import Qround.
Import ListNotations.
Open Scope string_scope.
Open Scope Q_scope.

(** ** Python primitives used by the sources *)

Module Py.

(** [a < b], [a >= b] and [a > b] on numbers. *)
Definition lt (a b : Q) : bool := negb (Qle_bool b a).
Definition ge (a b : Q) : bool := Qle_bool b a.
Definition gt (a b : Q) : bool := lt b a.

(** Two-argument [min(a, b)] and [max(a, b)]: the first argument is kept
    unless the second is strictly smaller (resp. larger). *)
Definition min (a b : Q) : Q := if lt b a then b else a.
Definition max (a b : Q) : Q := if gt b a then b else a.

(** [ord(c)]. *)
Definition ord (c : ascii) : Z := Z.of_nat (nat_of_ascii c).

(** [str.lower()] on ASCII. *)
Definition lower_ascii (c : ascii) : ascii :=
  let n := nat_of_ascii c in
  if (65 <=? n)%nat && (n <=? 90)%nat then ascii_of_nat (n + 32) else c.

Fixpoint lower (s : string) : string :=
  match s with
  | EmptyString => EmptyString
  | String c s' => String (lower_ascii c) (lower s')
  end.

(** [a in b] on strings: [a] occurs as a contiguous substring of [b]. *)
Fixpoint str_in (a b : string) : bool :=
  String.prefix a b ||
  match b with
  | EmptyString => false
  | String _ b' => str_in a b'
  end.

(** Insertion-ordered dictionaries with string keys. *)
Definition dict (V : Type) : Type := list (string * V).

Fixpoint get {V} (d : dict V) (k : string) : option V :=
  match d with
  | [] => None
  | (k', v) :: d' => if String.eqb k k' then Some v else get d' k
  end.

(** [d[k] = v]: an existing key keeps its position. *)
Fixpoint set {V} (d : dict V) (k : string) (v : V) : dict V :=
  match d with
  | [] => [(k, v)]
  | (k', v') :: d' =>
      if String.eqb k k' then (k', v) :: d' else (k', v') :: set d' k v
  end.

Definition keys {V} (d : dict V) : list string := map fst d.

(** [random.choice(l)] with the draw [rnd] supplied by the caller. *)
Definition choice {A} (rnd : nat) (l : list A) : option A :=
  nth_error l (rnd mod length l).

(** Truth value of a float: [0.0] is false. *)
Definition truthy (x : Q) : bool := negb (Qeq_bool x 0).

(** [int(x)] on a float: truncation towards zero. *)
Definition int (x : Q) : Z :=
  if Qle_bool 0 x then Qfloor x else Qceiling x.

(** [d.get(k, default)]. *)
Definition get_default {V} (d : dict V) (k : string) (default : V) : V :=
  match get d k with
  | Some v => v
  | None => default
  end.

End Py.

(** ** [src/main.py]: class [Memey] *)

(** Calls made on the collaborators. *)
Inductive Effect : Type :=
| DisplayMeme (emotion : string) (duration : Q)
    (* self.meme_manager.display_meme(emotion, duration=...) *)
| PlayEmotionSound (emotion : string)
    (* self.audio_player.play_emotion_sound(emotion) *)
| AudioStop.
    (* self.audio_player.stop() *)

Record Memey : Type := mkMemey {
  (* Settings *)
  detection_interval : Q;
  emotion_hold_time : Q;
  meme_cooldown : Q;
  meme_display_duration : Q;
  confidence_threshold : Q;
  sound_enabled : bool;
  (* State tracking *)
  current_emotion : string;
  emotion_start_time : option Q;
  meme_triggered : bool;
  last_meme_time : Q
}.

(** [Memey.__init__]. *)
Definition __init__ : Memey :=
  {| detection_interval := 0.3;
     emotion_hold_time := 2.0;
     meme_cooldown := 5.0;
     meme_display_duration := 4.0;
     confidence_threshold := 0.4;
     sound_enabled := true;
     current_emotion := "neutral";
     emotion_start_time := None;
     meme_triggered := false;
     last_meme_time := 0 |}.

(** Attribute assignment [self.f = v], one setter per assigned attribute. *)
Definition set_current_emotion (self : Memey) (v : string) : Memey :=
  {| detection_interval := detection_interval self;
     emotion_hold_time := emotion_hold_time self;
     meme_cooldown := meme_cooldown self;
     meme_display_duration := meme_display_duration self;
     confidence_threshold := confidence_threshold self;
     sound_enabled := sound_enabled self;
     current_emotion := v;
     emotion_start_time := emotion_start_time self;
     meme_triggered := meme_triggered self;
     last_meme_time := last_meme_time self |}.

Definition set_emotion_start_time (self : Memey) (v : option Q) : Memey :=
  {| detection_interval := detection_interval self;
     emotion_hold_time := emotion_hold_time self;
     meme_cooldown := meme_cooldown self;
     meme_display_duration := meme_display_duration self;
     confidence_threshold := confidence_threshold self;
     sound_enabled := sound_enabled self;
     current_emotion := current_emotion self;
     emotion_start_time := v;
     meme_triggered := meme_triggered self;
     last_meme_time := last_meme_time self |}.

Definition set_meme_triggered (self : Memey) (v : bool) : Memey :=
  {| detection_interval := detection_interval self;
     emotion_hold_time := emotion_hold_time self;
     meme_cooldown := meme_cooldown self;
     meme_display_duration := meme_display_duration self;
     confidence_threshold := confidence_threshold self;
     sound_enabled := sound_enabled self;
     current_emotion := current_emotion self;
     emotion_start_time := emotion_start_time self;
     meme_triggered := v;
     last_meme_time := last_meme_time self |}.

Definition set_last_meme_time (self : Memey) (v : Q) : Memey :=
  {| detection_interval := detection_interval self;
     emotion_hold_time := emotion_hold_time self;
     meme_cooldown := meme_cooldown self;
     meme_display_duration := meme_display_duration self;
     confidence_threshold := confidence_threshold self;
     sound_enabled := sound_enabled self;
     current_emotion := current_emotion self;
     emotion_start_time := emotion_start_time self;
     meme_triggered := meme_triggered self;
     last_meme_time := v |}.

Definition set_sound_enabled (self : Memey) (v : bool) : Memey :=
  {| detection_interval := detection_interval self;
     emotion_hold_time := emotion_hold_time self;
     meme_cooldown := meme_cooldown self;
     meme_display_duration := meme_display_duration self;
     confidence_threshold := confidence_threshold self;
     sound_enabled := v;
     current_emotion := current_emotion self;
     emotion_start_time := emotion_start_time self;
     meme_triggered := meme_triggered self;
     last_meme_time := last_meme_time self |}.

(** [Memey._trigger_meme(emotion)].  [clock] is the reading of [time.time()]
    on the last line of the method. *)
Definition _trigger_meme (self : Memey) (emotion : string) (clock : Q)
  : Memey * list Effect :=
  let shown := [DisplayMeme emotion (meme_display_duration self)] in
  let played := if sound_enabled self then [PlayEmotionSound emotion] else [] in
  let self := set_meme_triggered self true in
  let self := set_last_meme_time self clock in
  (self, (shown ++ played)%list).

(** The local [cooldown_ok] of [_process_emotion]:
    [(current_time - self.last_meme_time) >= self.meme_cooldown]. *)
Definition cooldown_ok (self : Memey) (current_time : Q) : bool :=
  Py.ge (current_time - last_meme_time self) (meme_cooldown self).

(** [Memey._process_emotion(emotion, confidence)].  [current_time] is the
    reading of [time.time()] on entry; [clock] is the reading that
    [_trigger_meme] takes if it is reached. *)
Definition _process_emotion (self : Memey) (emotion : string) (confidence : Q)
    (current_time clock : Q) : Memey * list Effect :=
  (* Check confidence threshold *)
  let emotion :=
    if Py.lt confidence (confidence_threshold self) then "neutral"
    else emotion in
  (* Check if emotion changed *)
  if negb (String.eqb emotion (current_emotion self)) then
    let self := set_current_emotion self emotion in
    let self := set_emotion_start_time self (Some current_time) in
    let self := set_meme_triggered self false in
    (self, [])
  else
    (* Initialize start time *)
    match emotion_start_time self with
    | None =>
        (set_emotion_start_time self (Some current_time), [])
    | Some start =>
        let emotion_duration := current_time - start in
        let cooldown_ok := cooldown_ok self current_time in
        (* Trigger conditions *)
        if negb (String.eqb emotion "neutral")
           && Py.ge emotion_duration (emotion_hold_time self)
           && negb (meme_triggered self)
           && cooldown_ok
        then _trigger_meme self emotion clock
        else (self, [])
    end.

(** [Memey._handle_key(key, current_emotion)]: the new state, the collaborator
    calls and the returned flag ([false] asks the loop to exit). *)
Definition _handle_key (self : Memey) (key : Z) (current_emotion_arg : string)
    (clock : Q) : Memey * list Effect * bool :=
  if (key =? 27)%Z then (self, [], false)
  else if (key =? Py.ord "r")%Z || (key =? Py.ord "R")%Z then
    let self := set_emotion_start_time self None in
    let self := set_meme_triggered self false in
    (self, [], true)
  else if (key =? Py.ord "m")%Z || (key =? Py.ord "M")%Z then
    let emotion :=
      if negb (String.eqb current_emotion_arg "neutral")
      then current_emotion_arg else "happy" in
    let '(self, effs) := _trigger_meme self emotion clock in
    (self, effs, true)
  else if (key =? Py.ord "s")%Z || (key =? Py.ord "S")%Z then
    let self := set_sound_enabled self (negb (sound_enabled self)) in
    (self, if negb (sound_enabled self) then [AudioStop] else [], true)
  else (self, [], true).

(** The cooldown line of [Memey._draw_status]: either the remaining cooldown
    or the text [Ready!]. *)
Inductive CooldownStatus : Type :=
| Cooldown (cooldown_remaining : Q)
| Ready.

Definition _draw_status_cooldown (self : Memey) (current_time : Q)
  : CooldownStatus :=
  let cooldown_remaining :=
    Py.max 0 (meme_cooldown self - (current_time - last_meme_time self)) in
  if Py.gt cooldown_remaining 0 && Py.gt (last_meme_time self) 0
  then Cooldown cooldown_remaining
  else Ready.

(** The hold line of [Memey._draw_status]: the text [Waiting for emotion...],
    or the hold time, the progress and the width in pixels of the green part
    of the 230 pixel bar; the float division raises [ZeroDivisionError] when
    [emotion_hold_time] is zero. *)
Inductive HoldStatus : Type :=
| Waiting
| Hold (hold_time progress : Q) (fill : Z)
| HoldZeroDivisionError.

Definition _draw_status_hold (self : Memey) (current_time : Q) : HoldStatus :=
  match emotion_start_time self with
  | Some start =>
      if Py.truthy start
         && negb (String.eqb (current_emotion self) "neutral")
      then
        let hold_time := current_time - start in
        if Qeq_bool (emotion_hold_time self) 0 then HoldZeroDivisionError
        else
          let progress := Py.min (hold_time / emotion_hold_time self) 1.0 in
          (* Progress bar *)
          let bar_width := 230 in
          Hold hold_time progress (Py.int (bar_width * progress))
      else Waiting
  | None => Waiting
  end.

(** *** Sequences of calls *)

(** One call [_process_emotion(emotion, confidence)] together with the clock
    readings it consumes. *)
Record Observation : Type := mkObs {
  obs_emotion : string;
  obs_confidence : Q;
  obs_time : Q;    (* time.time() on entry of _process_emotion *)
  obs_clock : Q    (* time.time() at the end of _trigger_meme, if reached *)
}.

Definition observe (self : Memey) (o : Observation) : Memey * list Effect :=
  _process_emotion self (obs_emotion o) (obs_confidence o)
    (obs_time o) (obs_clock o).

(** The label an observation carries after the threshold check on the first
    lines of [_process_emotion]. *)
Definition coerced (self : Memey) (o : Observation) : string :=
  if Py.lt (obs_confidence o) (confidence_threshold self) then "neutral"
  else obs_emotion o.

(** Trigger events among collaborator calls.  Every call of [_trigger_meme]
    makes exactly one [display_meme] call, which carries the label. *)
Definition trigger_labels (effs : list Effect) : list string :=
  flat_map (fun e => match e with
                     | DisplayMeme l _ => [l]
                     | _ => []
                     end) effs.

(** A trigger event seen from outside: the time of the call that emitted it
    and its label. *)
Record Fire : Type := mkFire { fire_time : Q; fire_label : string }.

Definition fires_at (t : Q) (effs : list Effect) : list Fire :=
  map (mkFire t) (trigger_labels effs).

(** Feeding a sequence of observations to the controller. *)
Fixpoint observe_all (self : Memey) (os : list Observation)
  : Memey * list Fire :=
  match os with
  | [] => (self, [])
  | o :: os' =>
      let '(self, effs) := observe self o in
      let '(self, fs) := observe_all self os' in
      (self, (fires_at (obs_time o) effs ++ fs)%list)
  end.

(** One iteration of the [while True] loop of [Memey.run], from the
    classifier's answer on: the observation is processed, then the key
    returned by [cv2.waitKey(1) & 0xFF] is handled with the raw label. *)
Record Frame : Type := mkFrame {
  frame_obs : Observation;
  frame_key : Z;        (* cv2.waitKey(1) *)
  frame_key_clock : Q   (* time.time() in _trigger_meme under the M key *)
}.

Definition loop_body (self : Memey) (f : Frame) : Memey * list Effect * bool :=
  let '(self, effs1) := observe self (frame_obs f) in
  let key := Z.land (frame_key f) 255 in
  let '(self, effs2, continue) :=
    _handle_key self key (obs_emotion (frame_obs f)) (frame_key_clock f) in
  (self, (effs1 ++ effs2)%list, continue).

Fixpoint run (self : Memey) (frames : list Frame) : Memey * list Effect :=
  match frames with
  | [] => (self, [])
  | f :: frames' =>
      let '(self, effs, continue) := loop_body self f in
      if continue then
        let '(self, effs') := run self frames' in
        (self, (effs ++ effs')%list)
      else (self, effs)
  end.

(** ** [src/meme_manager.py]: class [MemeManager] *)

Module MemeManager.

Definition Path : Type := string.

(** Calls made on the window toolkit by [display_meme]. *)
Inductive Call : Type :=
| CloseCurrentDisplay
| StartDisplayThread (meme_path : Path) (emotion : string) (duration : Q).

Definition SUPPORTED_FORMATS : list string :=
  [".jpg"; ".jpeg"; ".png"; ".gif"; ".webp"].

(** What [iterdir] shows of the memes directory: entries with their name,
    whether they are directories, and the files inside with their suffix. *)
Record DirEntry : Type := mkDirEntry {
  entry_name : string;
  entry_is_dir : bool;
  entry_files : list (string * Path)   (* (suffix, path) *)
}.

(** [_load_meme_library()] over the listing of [self.memes_dir]. *)
Definition _load_meme_library (listing : list DirEntry)
  : Py.dict (list Path) :=
  fold_left
    (fun meme_cache emotion_dir =>
       if entry_is_dir emotion_dir then
         let emotion := Py.lower (entry_name emotion_dir) in
         let memes :=
           map snd
             (filter (fun f => existsb (String.eqb (Py.lower (fst f)))
                                       SUPPORTED_FORMATS)
                     (entry_files emotion_dir)) in
         Py.set meme_cache emotion memes
       else meme_cache)
    listing [].

(** [get_random_meme(emotion)] over [self.meme_cache]. *)
Definition get_random_meme (meme_cache : Py.dict (list Path))
    (emotion : string) (rnd : nat) : option Path :=
  let emotion := Py.lower emotion in
  match Py.get meme_cache emotion with
  | Some ((_ :: _) as memes) => Py.choice rnd memes
  | _ =>
      (* Fallback to neutral *)
      match Py.get meme_cache "neutral" with
      | Some ((_ :: _) as memes) => Py.choice rnd memes
      | _ => None
      end
  end.

(** [display_meme(emotion, duration)]. *)
Definition display_meme (meme_cache : Py.dict (list Path))
    (emotion : string) (duration : Q) (rnd : nat) : list Call :=
  match get_random_meme meme_cache emotion rnd with
  | None => []
  | Some meme_path =>
      [CloseCurrentDisplay; StartDisplayThread meme_path emotion duration]
  end.

(** [_count_memes()]. *)
Definition _count_memes (meme_cache : Py.dict (list Path)) : nat :=
  list_sum (map (fun item => length (snd item)) meme_cache).

(** [list_available_emotions()]. *)
Definition list_available_emotions (meme_cache : Py.dict (list Path))
  : list string :=
  map fst (filter (fun item => match snd item with
                               | [] => false
                               | _ :: _ => true
                               end) meme_cache).

End MemeManager.

(** ** [src/audio_player.py]: class [AudioPlayer] *)

Module AudioPlayer.

Definition Path : Type := string.

(** Calls made on [pygame.mixer.music]. *)
Inductive Call : Type :=
| MusicStop
| MusicLoad (sound_path : Path)
| MusicPlay (loops : Z)
| MusicSetVolume (volume : Q).

Definition SUPPORTED_FORMATS : list string := [".mp3"; ".wav"; ".ogg"].

(** A file of the sounds directory as [iterdir] shows it. *)
Record SoundFile : Type := mkSoundFile {
  file_stem : string;
  file_suffix : string;
  file_path : Path
}.

(** [_load_sound_library()] over the listing of [self.sounds_dir]. *)
Definition _load_sound_library (listing : list SoundFile) : Py.dict Path :=
  fold_left
    (fun sound_cache sound_file =>
       if existsb (String.eqb (Py.lower (file_suffix sound_file)))
                  SUPPORTED_FORMATS
       then
         (* Use filename (without extension) as emotion key *)
         let emotion := Py.lower (file_stem sound_file) in
         Py.set sound_cache emotion (file_path sound_file)
       else sound_cache)
    listing [].

(** The [for ... else] search of [play_emotion_sound]: the first cached key,
    in iteration order, that contains the request or is contained in it. *)
Definition partial_match (sound_cache : Py.dict Path) (emotion : string)
  : option string :=
  find (fun cached_emotion =>
          Py.str_in emotion cached_emotion || Py.str_in cached_emotion emotion)
       (Py.keys sound_cache).

(** The key under which [play_emotion_sound] finally reads the cache. *)
Definition sound_key (sound_cache : Py.dict Path) (emotion : string)
  : option string :=
  let emotion := Py.lower emotion in
  match Py.get sound_cache emotion with
  | Some _ => Some emotion
  | None => partial_match sound_cache emotion
  end.

(** How [pygame.mixer.music] behaves during one method call: which of its
    functions raise.  A call that raises is still recorded as made. *)
Record Mixer : Type := mkMixer {
  stop_raises : bool;
  load_raises : bool;
  play_raises : bool
}.

Definition quiet : Mixer := mkMixer false false false.

(** [stop()]: the new [self.is_playing] and the mixer calls; an exception of
    [music.stop()] is swallowed before the flag is cleared. *)
Definition stop (is_playing : bool) (mixer : Mixer) : bool * list Call :=
  if stop_raises mixer then (is_playing, [MusicStop])
  else (false, [MusicStop]).

(** [play_emotion_sound(emotion, loop)]: the new [self.is_playing] and the
    mixer calls.  An exception of [music.load] or [music.play] ends the
    [try] block and is only printed. *)
Definition play_emotion_sound (sound_cache : Py.dict Path)
    (is_playing : bool) (emotion : string) (loop : bool) (mixer : Mixer)
  : bool * list Call :=
  match sound_key sound_cache emotion with
  | None => (is_playing, [])    (* No sound found *)
  | Some emotion =>
      match Py.get sound_cache emotion with
      | None => (is_playing, [])  (* sound_key only answers cached keys *)
      | Some sound_path =>
          let '(is_playing, stopped) := stop is_playing mixer in
          if load_raises mixer then
            (is_playing, (stopped ++ [MusicLoad sound_path])%list)
          else
            let loops := if loop then (-1)%Z else 0%Z in
            let calls :=
              (stopped ++ [MusicLoad sound_path; MusicPlay loops])%list in
            if play_raises mixer then (is_playing, calls)
            else (true, calls)
      end
  end.

(** [set_volume(volume)]. *)
Definition set_volume (volume : Q) : list Call :=
  [MusicSetVolume (Py.max 0.0 (Py.min 1.0 volume))].

End AudioPlayer.

(** ** [src/emotion_detector.py]: class [EmotionDetector] *)

Module EmotionDetector.

Record t : Type := mk {
  detection_interval : Q;
  last_detection_time : Q;
  last_emotion : string;
  last_confidence : Q
}.

(** [EmotionDetector.__init__(detection_interval)]. *)
Definition __init__ (detection_interval : Q) : t :=
  {| detection_interval := detection_interval;
     last_detection_time := 0;
     last_emotion := "neutral";
     last_confidence := 0.0 |}.

(** One result dictionary of [DeepFace.analyze]: the keys [emotion] and
    [dominant_emotion], either of which may be absent. *)
Record Result : Type := mkResult {
  result_emotion : option (Py.dict Q);
  result_dominant_emotion : option string
}.

(** What the call [DeepFace.analyze(...)] does: it raises, or returns a list
    of results, or a single result. *)
Inductive Analysis : Type :=
| Raises
| ReturnsList (results : list Result)
| ReturnsDict (results : Result).

(** The statements of the [try] block up to [results = results[0]]; [None]
    when an exception reaches the [except] clause. *)
Definition analyzed (analysis : Analysis) : option Result :=
  match analysis with
  | Raises => None
  | ReturnsList [] => None          (* IndexError *)
  | ReturnsList (results :: _) => Some results
  | ReturnsDict results => Some results
  end.

(** [detect_emotion(frame)]: [current_time] is the reading of [time.time()],
    [analysis] the behaviour of [DeepFace.analyze] on the frame.  Returns the
    new state and the tuple [(emotion_name, confidence, full_results_dict)]. *)
Definition detect_emotion (self : t) (current_time : Q) (analysis : Analysis)
  : t * (string * Q * option (Py.dict Q)) :=
  (* Rate limiting for performance *)
  if Py.lt (current_time - last_detection_time self) (detection_interval self)
  then (self, (last_emotion self, last_confidence self, None))
  else
    let self := {| detection_interval := detection_interval self;
                   last_detection_time := current_time;
                   last_emotion := last_emotion self;
                   last_confidence := last_confidence self |} in
    match analyzed analysis with
    | Some results =>
        let emotions :=
          match result_emotion results with
          | Some emotions => emotions
          | None => []
          end in
        let dominant_emotion :=
          match result_dominant_emotion results with
          | Some dominant_emotion => dominant_emotion
          | None => "neutral"
          end in
        let confidence := Py.get_default emotions dominant_emotion 0 / 100.0 in
        let self := {| detection_interval := detection_interval self;
                       last_detection_time := last_detection_time self;
                       last_emotion := dominant_emotion;
                       last_confidence := confidence |} in
        (self, (dominant_emotion, confidence, Some emotions))
    | None =>
        (self, (last_emotion self, last_confidence self, None))
    end.

(** A sequence of [detect_emotion] calls and the tuples they return. *)
Fixpoint detect_all (self : t) (calls : list (Q * Analysis))
  : t * list (string * Q * option (Py.dict Q)) :=
  match calls with
  | [] => (self, [])
  | (current_time, analysis) :: calls' =>
      let '(self, out) := detect_emotion self current_time analysis in
      let '(self, outs) := detect_all self calls' in
      (self, out :: outs)
  end.

End EmotionDetector.

(** ** The resolution policy as the specification words it *)

Module Spec.

(** [resolve(label)]: exact case-insensitive match; on miss a bidirectional
    substring match against the known labels; on miss the [neutral] bucket;
    on total miss none. *)
Definition resolve {V} (assets : Py.dict V) (label : string) : option V :=
  let label := Py.lower label in
  match Py.get assets label with
  | Some a => Some a
  | None =>
      match find (fun known => Py.str_in label known || Py.str_in known label)
                 (Py.keys assets) with
      | Some known => Py.get assets known
      | None => Py.get assets "neutral"
      end
  end.

End Spec.

(** ** Auxiliary notions used in the statements *)


(** The two tests of the partial match of [play_emotion_sound]. *)
Definition related (emotion cached_emotion : string) : bool :=
  Py.str_in emotion cached_emotion || Py.str_in cached_emotion emotion.

(** A bucket that is missing or empty. *)
Definition no_memes (bucket : option (list MemeManager.Path)) : Prop :=
  bucket = None \/ bucket = Some [].

(** The scores that [DeepFace.analyze] reports are percentages. *)
Definition scores_are_percentages (analysis : EmotionDetector.Analysis)
  : Prop :=
  match EmotionDetector.analyzed analysis with
  | Some results =>
      match EmotionDetector.result_emotion results with
      | Some emotions => Forall (fun item => 0 <= snd item <= 100) emotions
      | None => True
      end
  | None => True
  end.

(** A sound file whose suffix, lower-cased, is a supported format. *)
Definition sound_supported (f : AudioPlayer.SoundFile) : bool :=
  existsb (String.eqb (Py.lower (AudioPlayer.file_suffix f)))
          AudioPlayer.SUPPORTED_FORMATS.

(** An image file, given as (suffix, path), whose suffix, lower-cased, is a
    supported format; and the memes a directory contributes. *)
Definition meme_supported (file : string * MemeManager.Path) : bool :=
  existsb (String.eqb (Py.lower (fst file))) MemeManager.SUPPORTED_FORMATS.

Definition memes_of (emotion_dir : MemeManager.DirEntry)
  : list MemeManager.Path :=
  map snd (filter meme_supported (MemeManager.entry_files emotion_dir)).

(** * Properties *)

(** ** Comparisons *)

Lemma Py_ge_iff (a b : Q) : Py.ge a b = true <-> b <= a.
Proof. unfold Py.ge. apply Qle_bool_iff. Qed.

Lemma Py_lt_iff (a b : Q) : Py.lt a b = true <-> a < b.
Proof.
  unfold Py.lt. rewrite negb_true_iff. split.
  - intros H. apply Qnot_le_lt. intros Hle.
    apply Qle_bool_iff in Hle. congruence.
  - intros H. destruct (Qle_bool b a) eqn:E; [|reflexivity].
    apply Qle_bool_iff in E. exfalso. exact (Qlt_not_le _ _ H E).
Qed.

Lemma Py_lt_false_iff (a b : Q) : Py.lt a b = false <-> b <= a.
Proof.
  unfold Py.lt. rewrite negb_false_iff. apply Qle_bool_iff.
Qed.

Lemma Py_gt_iff (a b : Q) : Py.gt a b = true <-> b < a.
Proof. unfold Py.gt. apply Py_lt_iff. Qed.

(** ** The volume clamp *)

(** C10: whatever volume is requested, [set_volume] hands the mixer exactly
    one volume, it lies in [0, 1], it is [0.0] for a request below 0, [1.0]
    for a request above 1, and numerically the request itself otherwise. *)
Theorem set_volume_clamped (v : Q) :
  exists w : Q,
    AudioPlayer.set_volume v = [AudioPlayer.MusicSetVolume w] /\
    0 <= w <= 1 /\
    (v < 0 -> w = 0.0) /\
    (1 < v -> w = 1.0) /\
    (0 <= v <= 1 -> w == v).
Proof.
  unfold AudioPlayer.set_volume, Py.max, Py.min.
  destruct (Py.lt v 1.0) eqn:Hmin.
  - apply Py_lt_iff in Hmin.
    destruct (Py.gt v 0.0) eqn:Hmax.
    + apply Py_gt_iff in Hmax. exists v.
      repeat split; try reflexivity; intros; lra.
    + unfold Py.gt in Hmax. apply Py_lt_false_iff in Hmax. exists 0.0.
      repeat split; try reflexivity; intros; lra.
  - apply Py_lt_false_iff in Hmin.
    destruct (Py.gt 1.0 0.0) eqn:Hmax; [|discriminate Hmax].
    exists 1.0.
    repeat split; try reflexivity; intros; lra.
Qed.

(** ** Single calls of the controller *)

Lemma trigger_labels_trigger_meme (self : Memey) (e : string) (clock : Q) :
  trigger_labels (snd (_trigger_meme self e clock)) = [e].
Proof.
  unfold _trigger_meme; simpl. destruct (sound_enabled self); reflexivity.
Qed.

Lemma trigger_labels_app (l1 l2 : list Effect) :
  trigger_labels (l1 ++ l2) = (trigger_labels l1 ++ trigger_labels l2)%list.
Proof. unfold trigger_labels. apply flat_map_app. Qed.

(** C7: an observation below the confidence threshold is processed exactly
    like a [neutral] observation of any confidence taken at the same time:
    same resulting state, same (empty) list of collaborator calls, whatever
    label it reported. *)
Theorem low_confidence_is_neutral (self : Memey) (label : string)
    (c c' now clock clock' : Q) :
  c < confidence_threshold self ->
  _process_emotion self label c now clock
    = _process_emotion self "neutral" c' now clock' /\
  snd (_process_emotion self label c now clock) = [].
Proof.
  intros Hc. apply Py_lt_iff in Hc.
  unfold _process_emotion. rewrite Hc.
  replace (if Py.lt c' (confidence_threshold self)
           then "neutral" else "neutral") with "neutral"
    by (destruct (Py.lt c' (confidence_threshold self)); reflexivity).
  destruct (negb ("neutral" =? current_emotion self)%string).
  - split; reflexivity.
  - destruct (emotion_start_time self) as [start|].
    + simpl. split; reflexivity.
    + split; reflexivity.
Qed.

Lemma low_confidence_is_neutral_witness :
  _process_emotion __init__ "happy" 0.1 100 101
    = _process_emotion __init__ "neutral" 0.9 100 102 /\
  snd (_process_emotion __init__ "happy" 0.1 100 101) = [].
Proof.
  apply (low_confidence_is_neutral __init__ "happy" 0.1 0.9 100 101 102).
  vm_compute. reflexivity.
Defined.

(** ** The manual trigger *)

(** C1 (as stated, refuted): pressing M in the initial state at clock
    reading 10 sets [meme_triggered] and moves [last_meme_time]. *)
Lemma force_trigger_alters_state :
  let self' := fst (fst (_handle_key __init__ (Py.ord "m") "happy" 10)) in
  meme_triggered self' <> meme_triggered __init__ /\
  ~ last_meme_time self' == last_meme_time __init__.
Proof.
  vm_compute. split; [discriminate | intros H; discriminate H].
Qed.

(** C1 (amended): the M key emits at once exactly one trigger for the given
    label, or for [happy] when that label is [neutral]; it keeps the settings,
    [current_emotion] and [emotion_start_time], sets [meme_triggered] and
    stamps [last_meme_time] with the clock. *)
Theorem force_trigger_effect (self : Memey) (key : Z) (label : string)
    (clock : Q) :
  key = Py.ord "m" \/ key = Py.ord "M" ->
  let e := if String.eqb label "neutral" then "happy" else label in
  let '(self', effs, continue) := _handle_key self key label clock in
  effs = (DisplayMeme e (meme_display_duration self)
            :: if sound_enabled self then [PlayEmotionSound e] else [])%list /\
  trigger_labels effs = [e] /\
  continue = true /\
  current_emotion self' = current_emotion self /\
  emotion_start_time self' = emotion_start_time self /\
  meme_triggered self' = true /\
  last_meme_time self' = clock /\
  emotion_hold_time self' = emotion_hold_time self /\
  meme_cooldown self' = meme_cooldown self /\
  confidence_threshold self' = confidence_threshold self /\
  sound_enabled self' = sound_enabled self.
Proof.
  intros [-> | ->]; unfold _handle_key, _trigger_meme; simpl;
    destruct (String.eqb label "neutral"); simpl;
    destruct (sound_enabled self); repeat split; reflexivity.
Qed.

Lemma force_trigger_effect_witness :
  let '(self', effs, continue) :=
    _handle_key __init__ (Py.ord "m") "neutral" 10 in
  effs = [DisplayMeme "happy" 4.0; PlayEmotionSound "happy"] /\
  meme_triggered self' = true /\ last_meme_time self' = 10.
Proof.
  pose proof (force_trigger_effect __init__ (Py.ord "m") "neutral" 10
                (or_introl eq_refl)) as H.
  cbv zeta in H. destruct (_handle_key __init__ (Py.ord "m") "neutral" 10)
    as [[self' effs] continue].
  destruct H as (He & _ & _ & _ & _ & Ht & Hl & _).
  repeat split; assumption.
Defined.

(** ** The cooldown before any trigger *)

Lemma Py_ge_false_iff (a b : Q) : Py.ge a b = false <-> a < b.
Proof.
  unfold Py.ge. split.
  - intros H. apply Qnot_le_lt. intros Hle.
    apply Qle_bool_iff in Hle. congruence.
  - intros H. destruct (Qle_bool b a) eqn:E; [|reflexivity].
    apply Qle_bool_iff in E. exfalso. exact (Qlt_not_le _ _ H E).
Qed.




(** ** The three-observation scenario *)

(** Read as clock readings within the first seconds after the epoch, the
    three observations emit nothing: at 2.1 the cooldown counted from the
    initial [last_meme_time] of 0 has not elapsed. *)
Lemma scenario_happy_emits_nothing (k0 k1 k2 : Q) :
  snd (observe_all __init__
         [mkObs "happy" 0.9 0 k0; mkObs "happy" 0.9 0.5 k1;
          mkObs "happy" 0.9 2.1 k2]) = [].
Proof. reflexivity. Qed.

(** C3: from the initial state (threshold 0.4, hold 2.0, cooldown 5.0), with
    the scenario times taken as offsets from the clock reading [base] of the
    first observation, [happy] at 0.9 observed at [base], [base + 0.5] and
    [base + 2.1] emits exactly one trigger, at [base + 2.1], for [happy];
    this holds for every clock with [base + 2.1] at least the cooldown, and
    whatever the clock shows inside [_trigger_meme]. *)
Theorem scenario_happy_shifted (base k0 k1 k2 : Q) :
  2.9 <= base ->
  snd (observe_all __init__
         [mkObs "happy" 0.9 (base + 0) k0; mkObs "happy" 0.9 (base + 0.5) k1;
          mkObs "happy" 0.9 (base + 2.1) k2])
  = [mkFire (base + 2.1) "happy"].
Proof.
  intros Hb.
  assert (H1 : Py.ge (base + 0.5 - (base + 0)) 2.0 = false)
    by (apply Py_ge_false_iff; lra).
  assert (H2 : Py.ge (base + 2.1 - (base + 0)) 2.0 = true)
    by (apply Py_ge_iff; lra).
  assert (H3 : Py.ge (base + 2.1 - 0) 5.0 = true)
    by (apply Py_ge_iff; lra).
  unfold observe_all, observe, _process_emotion, cooldown_ok, __init__.
  cbn -[Py.ge Qplus Qminus].
  rewrite H1. cbn -[Py.ge Qplus Qminus].
  rewrite H2, H3. reflexivity.
Qed.

Lemma scenario_happy_shifted_witness :
  snd (observe_all __init__
         [mkObs "happy" 0.9 (1793707356 + 0) 1793707356;
          mkObs "happy" 0.9 (1793707356 + 0.5) 1793707357;
          mkObs "happy" 0.9 (1793707356 + 2.1) 1793707359])
  = [mkFire (1793707356 + 2.1) "happy"].
Proof.
  apply (scenario_happy_shifted 1793707356
           1793707356 1793707357 1793707359).
  vm_compute. discriminate.
Defined.

(** ** Case analysis of one observation *)

(** The four ways through [_process_emotion]: label change, start-time
    initialisation, trigger, and nothing at all. *)
Lemma observe_cases (self : Memey) (o : Observation) :
  let e := coerced self o in
  (e <> current_emotion self /\
   observe self o =
     (set_meme_triggered
        (set_emotion_start_time (set_current_emotion self e)
           (Some (obs_time o))) false, []))
  \/ (e = current_emotion self /\ emotion_start_time self = None /\
      observe self o = (set_emotion_start_time self (Some (obs_time o)), []))
  \/ (exists start,
        e = current_emotion self /\ emotion_start_time self = Some start /\
        e <> "neutral" /\
        emotion_hold_time self <= obs_time o - start /\
        meme_triggered self = false /\
        meme_cooldown self <= obs_time o - last_meme_time self /\
        observe self o = _trigger_meme self e (obs_clock o))
  \/ (exists start,
        e = current_emotion self /\ emotion_start_time self = Some start /\
        observe self o = (self, [])).
Proof.
  unfold observe, coerced, _process_emotion, cooldown_ok.
  set (e := if Py.lt (obs_confidence o) (confidence_threshold self)
            then "neutral" else obs_emotion o).
  cbv zeta.
  destruct (String.eqb e (current_emotion self)) eqn:Ecur; simpl.
  - apply String.eqb_eq in Ecur.
    destruct (emotion_start_time self) as [start|] eqn:Est.
    + destruct (String.eqb e "neutral") eqn:Eneu; simpl;
        [right; right; right; exists start; auto|].
      destruct (Py.ge (obs_time o - start) (emotion_hold_time self)) eqn:Ehold;
        simpl; [|right; right; right; exists start; auto].
      destruct (meme_triggered self) eqn:Etrig; simpl;
        [right; right; right; exists start; auto|].
      destruct (Py.ge (obs_time o - last_meme_time self) (meme_cooldown self))
        eqn:Ecool; [|right; right; right; exists start; auto].
      right; right; left. exists start.
      apply String.eqb_neq in Eneu.
      apply Py_ge_iff in Ehold. apply Py_ge_iff in Ecool.
      repeat split; auto.
    + right; left. auto.
  - apply String.eqb_neq in Ecur. left. auto.
Qed.

Lemma coerced_ext (s1 s2 : Memey) (o : Observation) :
  confidence_threshold s1 = confidence_threshold s2 ->
  coerced s1 o = coerced s2 o.
Proof. unfold coerced. intros ->. reflexivity. Qed.

(** An observation never touches the settings. *)
Lemma observe_settings (self : Memey) (o : Observation) :
  let self' := fst (observe self o) in
  confidence_threshold self' = confidence_threshold self /\
  emotion_hold_time self' = emotion_hold_time self /\
  meme_cooldown self' = meme_cooldown self.
Proof.
  destruct (observe_cases self o)
    as [(_ & ->) | [(_ & _ & ->) | [(st & _ & _ & _ & _ & _ & _ & ->)
                                   | (st & _ & _ & ->)]]];
    simpl; auto.
Qed.

Lemma observe_all_cons (self : Memey) (o : Observation)
    (os : list Observation) :
  snd (observe_all self (o :: os)) =
    (fires_at (obs_time o) (snd (observe self o))
       ++ snd (observe_all (fst (observe self o)) os))%list.
Proof.
  simpl. destruct (observe self o) as [self1 effs]. simpl.
  destruct (observe_all self1 os) as [self2 fs]. reflexivity.
Qed.

Lemma fires_at_trigger_meme (self : Memey) (t : Q) (e : string) (clock : Q) :
  fires_at t (snd (_trigger_meme self e clock)) = [mkFire t e].
Proof.
  unfold fires_at. rewrite trigger_labels_trigger_meme. reflexivity.
Qed.

(** ** At most one trigger per episode *)

(** Once the flag is set, observations carrying the current label are
    silent. *)
Lemma silent_while_triggered (self0 : Memey) (lbl : string) :
  forall (os : list Observation) (self : Memey),
    confidence_threshold self = confidence_threshold self0 ->
    current_emotion self = lbl ->
    meme_triggered self = true ->
    Forall (fun o => coerced self0 o = lbl) os ->
    snd (observe_all self os) = [].
Proof.
  induction os as [|o os IH]; intros self Hth Hcur Htrig Hall; [reflexivity|].
  inversion Hall as [|? ? Ho Hos]; subst.
  rewrite observe_all_cons.
  rewrite <- (coerced_ext self self0 o Hth) in *.
  destruct (observe_cases self o)
    as [(Hne & Heq) | [(_ & _ & Heq) | [(st & _ & _ & _ & _ & Hf & _)
                                       | (st & _ & _ & Heq)]]].
  - congruence.
  - rewrite Heq. simpl. apply IH; auto.
  - congruence.
  - rewrite Heq. simpl. apply IH; auto.
Qed.

(** C5: a run of observations that all carry the same (possibly coerced)
    label, fed to the controller in any state, emits at most one trigger. *)
Theorem at_most_one_fire_per_episode (self : Memey) (lbl : string)
    (os : list Observation) :
  Forall (fun o => coerced self o = lbl) os ->
  (length (snd (observe_all self os)) <= 1)%nat.
Proof.
  revert os.
  enough (H : forall (os : list Observation) (s : Memey),
             confidence_threshold s = confidence_threshold self ->
             Forall (fun o => coerced self o = lbl) os ->
             (length (snd (observe_all s os)) <= 1)%nat)
    by (intros os; apply H; reflexivity).
  induction os as [|o os IH]; intros s Hth Hall; [simpl; lia|].
  inversion Hall as [|? ? Ho Hos]; subst.
  rewrite observe_all_cons.
  pose proof (coerced_ext s self o Hth) as Hco.
  destruct (observe_cases s o)
    as [(_ & Heq) | [(_ & _ & Heq) | [(st & Hcur & _ & _ & _ & _ & _ & Heq)
                                     | (st & _ & _ & Heq)]]].
  - rewrite Heq. simpl. apply IH; auto.
  - rewrite Heq. simpl. apply IH; auto.
  - rewrite Heq, fires_at_trigger_meme.
    rewrite (silent_while_triggered self (coerced self o)); simpl; auto.
    congruence.
  - rewrite Heq. simpl. apply IH; auto.
Qed.

Lemma at_most_one_fire_per_episode_witness :
  (length (snd (observe_all __init__
                  [mkObs "happy" 0.9 100 100; mkObs "happy" 0.9 103 103;
                   mkObs "happy" 0.5 104 104; mkObs "happy" 0.9 110 110]))
   <= 1)%nat.
Proof.
  apply (at_most_one_fire_per_episode __init__ "happy").
  repeat constructor.
Defined.

(** ** Spacing of consecutive triggers *)

(** The first trigger of a run passes the cooldown test against the
    [last_meme_time] the run started with. *)
Lemma first_fire_after_cooldown :
  forall (os : list Observation) (self : Memey) (f : Fire) (fs : list Fire),
    snd (observe_all self os) = f :: fs ->
    meme_cooldown self <= fire_time f - last_meme_time self.
Proof.
  induction os as [|o os IH]; intros self f fs Hrun; [discriminate Hrun|].
  rewrite observe_all_cons in Hrun.
  destruct (observe_cases self o)
    as [(_ & Heq) | [(_ & _ & Heq) | [(st & _ & _ & _ & _ & _ & Hcool & Heq)
                                     | (st & _ & _ & Heq)]]].
  - rewrite Heq in Hrun. simpl in Hrun. apply IH in Hrun. exact Hrun.
  - rewrite Heq in Hrun. simpl in Hrun. apply IH in Hrun. exact Hrun.
  - rewrite Heq, fires_at_trigger_meme in Hrun. simpl in Hrun.
    injection Hrun as <- _. exact Hcool.
  - rewrite Heq in Hrun. simpl in Hrun. apply IH in Hrun. exact Hrun.
Qed.

(** C6: when the clock does not run backwards inside a call (the reading
    stored by [_trigger_meme] is not earlier than the reading taken on entry
    of [_process_emotion]), any two consecutive triggers of a sequence of
    observations are at least [meme_cooldown] apart, whatever the labels and
    whatever state the sequence starts from. *)
Theorem consecutive_fires_spaced (self : Memey) (os : list Observation) :
  Forall (fun o => obs_time o <= obs_clock o) os ->
  forall (i : nat) (a b : Fire),
    nth_error (snd (observe_all self os)) i = Some a ->
    nth_error (snd (observe_all self os)) (S i) = Some b ->
    meme_cooldown self <= fire_time b - fire_time a.
Proof.
  revert self.
  induction os as [|o os IH]; intros self Hclk i a b Ha Hb.
  - destruct i; discriminate Ha.
  - inversion Hclk as [|? ? Ho Hos]; subst.
    rewrite observe_all_cons in Ha, Hb.
    pose proof (observe_settings self o) as (_ & _ & Hcd). cbv zeta in Hcd.
    destruct (observe_cases self o)
      as [(_ & Heq) | [(_ & _ & Heq) | [(st & _ & _ & _ & _ & _ & _ & Heq)
                                       | (st & _ & _ & Heq)]]].
    + rewrite Heq in Ha, Hb, Hcd. simpl fires_at in Ha, Hb.
      rewrite <- Hcd. eapply IH; eauto.
    + rewrite Heq in Ha, Hb, Hcd. simpl fires_at in Ha, Hb.
      rewrite <- Hcd. eapply IH; eauto.
    + rewrite Heq in Ha, Hb, Hcd. rewrite fires_at_trigger_meme in Ha, Hb.
      remember (snd (observe_all (fst (_trigger_meme self (coerced self o)
                                          (obs_clock o))) os))
        as rest eqn:Hrest.
      destruct i as [|i].
      * cbn [nth_error app] in Ha, Hb. injection Ha as <-.
        destruct rest as [|f fs]; [discriminate Hb|].
        injection Hb as ->. symmetry in Hrest.
        apply first_fire_after_cooldown in Hrest.
        simpl in Hrest. simpl. lra.
      * cbn [nth_error app] in Ha, Hb. subst rest.
        rewrite <- Hcd. eapply IH; eauto.
    + rewrite Heq in Ha, Hb. simpl in Ha, Hb. eapply IH; eauto.
Qed.

Lemma consecutive_fires_spaced_witness :
  meme_cooldown __init__ <= 112 - 102.
Proof.
  apply (consecutive_fires_spaced __init__
           [mkObs "happy" 0.9 100 100; mkObs "happy" 0.9 102 103;
            mkObs "sad" 0.9 109 109; mkObs "sad" 0.9 112 113]
           ltac:(repeat constructor; vm_compute; discriminate)
           0%nat (mkFire 102 "happy") (mkFire 112 "sad")
           eq_refl eq_refl).
Defined.

(** ** The episode reset *)

(** After an episode start no earlier than [T], every trigger of a run whose
    observations are read at [T] or later comes a full hold time after [T]. *)
Lemma fires_after_hold (T hold : Q) :
  forall (os : list Observation) (self : Memey) (start : Q),
    emotion_hold_time self = hold ->
    emotion_start_time self = Some start ->
    T <= start ->
    Forall (fun o => T <= obs_time o) os ->
    Forall (fun f => hold <= fire_time f - T) (snd (observe_all self os)).
Proof.
  induction os as [|o os IH]; intros self start Hh Hst HT Hall; [constructor|].
  inversion Hall as [|? ? Ho Hos]; subst.
  rewrite observe_all_cons.
  destruct (observe_cases self o)
    as [(_ & Heq) | [(_ & Hnone & _) | [(st & _ & Hst' & _ & Hhold & _ & _ & Heq)
                                       | (st & _ & _ & Heq)]]].
  - rewrite Heq. simpl.
    apply (IH _ (obs_time o)); auto.
  - congruence.
  - rewrite Heq, fires_at_trigger_meme.
    assert (st = start) by congruence. subst st.
    constructor.
    + simpl. lra.
    + apply (IH _ start); auto.
  - rewrite Heq. simpl. apply (IH _ start); auto.
Qed.

(** C9: an observation whose (possibly coerced) label differs from
    [current_emotion] emits nothing, makes that label current, restarts the
    episode at the time of the call, clears [meme_triggered] and leaves
    [last_meme_time] alone; and in any continuation whose observations are
    not read earlier than that call, every trigger comes at least
    [emotion_hold_time] after it. *)
Theorem label_change_resets_episode (self : Memey) (o : Observation) :
  coerced self o <> current_emotion self ->
  let self' := fst (observe self o) in
  snd (observe self o) = [] /\
  current_emotion self' = coerced self o /\
  emotion_start_time self' = Some (obs_time o) /\
  meme_triggered self' = false /\
  last_meme_time self' = last_meme_time self /\
  forall os : list Observation,
    Forall (fun o' => obs_time o <= obs_time o') os ->
    Forall (fun f => emotion_hold_time self <= fire_time f - obs_time o)
           (snd (observe_all self' os)).
Proof.
  intros Hne.
  destruct (observe_cases self o)
    as [(_ & Heq) | [(He & _) | [(st & He & _) | (st & He & _)]]];
    try contradiction.
  rewrite Heq. simpl. repeat split.
  intros os Hall.
  apply (fires_after_hold (obs_time o) _ os _ (obs_time o)); auto.
  apply Qle_refl.
Qed.

Lemma label_change_resets_episode_witness :
  snd (observe __init__ (mkObs "sad" 0.9 100 100)) = [] /\
  Forall (fun f => emotion_hold_time __init__ <= fire_time f - 100)
    (snd (observe_all (fst (observe __init__ (mkObs "sad" 0.9 100 100)))
            [mkObs "sad" 0.9 101 101; mkObs "sad" 0.9 103 103])).
Proof.
  pose proof (label_change_resets_episode __init__ (mkObs "sad" 0.9 100 100)
                ltac:(vm_compute; discriminate)) as (H1 & _ & _ & _ & _ & H2).
  split; [exact H1|].
  apply (H2 [mkObs "sad" 0.9 101 101; mkObs "sad" 0.9 103 103]).
  repeat constructor; vm_compute; discriminate.
Defined.

(** ** Labels of the triggers *)

Lemma observe_labels_not_neutral (self : Memey) (o : Observation) :
  Forall (fun l => l <> "neutral") (trigger_labels (snd (observe self o))).
Proof.
  destruct (observe_cases self o)
    as [(_ & ->) | [(_ & _ & ->) | [(st & _ & _ & Hn & _ & _ & _ & ->)
                                   | (st & _ & _ & ->)]]].
  - constructor.
  - constructor.
  - rewrite trigger_labels_trigger_meme. repeat constructor. exact Hn.
  - constructor.
Qed.

Lemma handle_key_labels_not_neutral (self : Memey) (key : Z) (label : string)
    (clock : Q) :
  Forall (fun l => l <> "neutral")
         (trigger_labels (snd (fst (_handle_key self key label clock)))).
Proof.
  unfold _handle_key.
  destruct (key =? 27)%Z; [constructor|].
  destruct ((key =? Py.ord "r")%Z || (key =? Py.ord "R")%Z); [constructor|].
  destruct ((key =? Py.ord "m")%Z || (key =? Py.ord "M")%Z).
  - destruct (_trigger_meme self
                (if negb (label =? "neutral")%string then label else "happy")
                clock) as [self' effs] eqn:Etr.
    replace effs with (snd (_trigger_meme self
                (if negb (label =? "neutral")%string then label else "happy")
                clock)) by (rewrite Etr; reflexivity).
    cbn [fst snd]. rewrite trigger_labels_trigger_meme.
    repeat constructor.
    destruct (String.eqb label "neutral") eqn:E; simpl.
    + discriminate.
    + apply String.eqb_neq. exact E.
  - destruct ((key =? Py.ord "s")%Z || (key =? Py.ord "S")%Z).
    + simpl. destruct (negb (negb (sound_enabled self))); constructor.
    + constructor.
Qed.

Lemma Forall_app_intro {A} (P : A -> Prop) (l1 l2 : list A) :
  Forall P l1 -> Forall P l2 -> Forall P (l1 ++ l2).
Proof. intros H1 H2. apply Forall_app. split; assumption. Qed.

(** C8: no trigger carries the label [neutral], be it emitted by an
    observation, by a key press, or anywhere in a run of the main loop. *)
Theorem trigger_label_never_neutral :
  (forall (self : Memey) (o : Observation),
     Forall (fun l => l <> "neutral")
            (trigger_labels (snd (observe self o)))) /\
  (forall (self : Memey) (key : Z) (label : string) (clock : Q),
     Forall (fun l => l <> "neutral")
            (trigger_labels (snd (fst (_handle_key self key label clock))))) /\
  (forall (frames : list Frame) (self : Memey),
     Forall (fun l => l <> "neutral")
            (trigger_labels (snd (run self frames)))).
Proof.
  split; [exact observe_labels_not_neutral|].
  split; [exact handle_key_labels_not_neutral|].
  induction frames as [|f frames IH]; intros self; [constructor|].
  simpl. unfold loop_body.
  pose proof (observe_labels_not_neutral self (frame_obs f)) as Hobs.
  destruct (observe self (frame_obs f)) as [self1 effs1].
  pose proof (handle_key_labels_not_neutral self1
                (Z.land (frame_key f) 255) (obs_emotion (frame_obs f))
                (frame_key_clock f)) as Hkey.
  destruct (_handle_key self1 (Z.land (frame_key f) 255)
              (obs_emotion (frame_obs f)) (frame_key_clock f))
    as [[self2 effs2] continue].
  cbn [fst snd] in Hobs, Hkey.
  destruct continue.
  - specialize (IH self2). destruct (run self2 frames) as [self3 effs3].
    cbn [snd] in *. rewrite !trigger_labels_app.
    repeat apply Forall_app_intro; assumption.
  - cbn [snd]. rewrite trigger_labels_app.
    apply Forall_app_intro; assumption.
Qed.

(** ** Asset resolution *)

Lemma lower_ascii_idem (c : ascii) :
  Py.lower_ascii (Py.lower_ascii c) = Py.lower_ascii c.
Proof.
  destruct c as [[] [] [] [] [] [] [] []]; reflexivity.
Qed.

Lemma lower_idem (s : string) : Py.lower (Py.lower s) = Py.lower s.
Proof.
  induction s as [|c s IH]; simpl; [reflexivity|].
  rewrite lower_ascii_idem, IH. reflexivity.
Qed.

Lemma keys_set {V} (P : string -> Prop) (d : Py.dict V) (k : string) (v : V) :
  Forall P (Py.keys d) -> P k -> Forall P (Py.keys (Py.set d k v)).
Proof.
  intros Hd Hk. induction d as [|[k' v'] d IH]; simpl.
  - repeat constructor. exact Hk.
  - inversion Hd as [|? ? Hk' Hd']; subst.
    destruct (String.eqb k k'); simpl; constructor; auto.
Qed.

(** Both caches are keyed by lower-case names, so that looking up the
    lower-cased label ignores case on both sides. *)
Lemma loaded_keys_lowercase :
  (forall listing,
     Forall (fun k => Py.lower k = k)
            (Py.keys (MemeManager._load_meme_library listing))) /\
  (forall listing,
     Forall (fun k => Py.lower k = k)
            (Py.keys (AudioPlayer._load_sound_library listing))).
Proof.
  split; intros listing.
  - unfold MemeManager._load_meme_library.
    assert (Hnil : Forall (fun k => Py.lower k = k)
                     (Py.keys (@nil (string * list MemeManager.Path))))
      by constructor.
    revert Hnil. generalize (@nil (string * list MemeManager.Path)).
    induction listing as [|e listing IH]; intros d Hd; cbn [fold_left];
      [exact Hd|].
    apply IH. destruct (MemeManager.entry_is_dir e); [|exact Hd].
    apply keys_set; [exact Hd | apply lower_idem].
  - unfold AudioPlayer._load_sound_library.
    assert (Hnil : Forall (fun k => Py.lower k = k)
                     (Py.keys (@nil (string * AudioPlayer.Path))))
      by constructor.
    revert Hnil. generalize (@nil (string * AudioPlayer.Path)).
    induction listing as [|f listing IH]; intros d Hd; cbn [fold_left];
      [exact Hd|].
    apply IH.
    destruct (existsb (String.eqb (Py.lower (AudioPlayer.file_suffix f)))
                AudioPlayer.SUPPORTED_FORMATS); [|exact Hd].
    apply keys_set; [exact Hd | apply lower_idem].
Qed.

(** C4 (as stated, refuted): with only a [surprised] image bucket a request
    for [surprise] gets no image although the three-tier policy finds the
    bucket by substring; with only a [neutral] sound a request for [happy]
    plays nothing although the three-tier policy falls back to it. *)
Lemma resolution_is_not_three_tier :
  (MemeManager.get_random_meme [("surprised", ["wow.png"])] "surprise" 0
     = None /\
   Spec.resolve [("surprised", ["wow.png"])] "surprise" = Some ["wow.png"]) /\
  (snd (AudioPlayer.play_emotion_sound [("neutral", "hum.mp3")] false
          "happy" false AudioPlayer.quiet)
     = [] /\
   Spec.resolve [("neutral", "hum.mp3")] "happy" = Some "hum.mp3").
Proof. repeat split; reflexivity. Qed.

Lemma choice_in {A} (rnd : nat) (l : list A) :
  l <> [] -> exists x, Py.choice rnd l = Some x /\ In x l.
Proof.
  intros Hne. unfold Py.choice.
  assert (Hlt : (rnd mod length l < length l)%nat).
  { apply Nat.mod_upper_bound. destruct l; [congruence | simpl; lia]. }
  destruct (nth_error l (rnd mod length l)) as [x|] eqn:E.
  - exists x. split; [reflexivity|]. eapply nth_error_In; eauto.
  - apply nth_error_None in E. lia.
Qed.

Lemma find_first {A} (f : A -> bool) (pre : list A) (x : A) (post : list A) :
  Forall (fun y => f y = false) pre -> f x = true ->
  find f (pre ++ x :: post) = Some x.
Proof.
  induction pre as [|y pre IH]; intros Hpre Hx; simpl.
  - rewrite Hx. reflexivity.
  - inversion Hpre as [|? ? Hy Hpre']; subst. rewrite Hy. auto.
Qed.

Lemma find_absent {A} (f : A -> bool) (l : list A) :
  Forall (fun y => f y = false) l -> find f l = None.
Proof.
  induction 1 as [|y l Hy _ IH]; simpl; [reflexivity|].
  rewrite Hy. exact IH.
Qed.

Lemma get_of_key {V} (d : Py.dict V) (k : string) :
  In k (Py.keys d) -> exists v, Py.get d k = Some v.
Proof.
  induction d as [|[k' v'] d IH]; simpl; [contradiction|].
  intros [<- | Hin].
  - rewrite String.eqb_refl. eauto.
  - destruct (String.eqb k k'); eauto.
Qed.

(** The mixer calls of the [try] block of [play_emotion_sound] for a
    resolved file, and the flag it leaves. *)
Lemma play_calls (is_playing : bool) (loop : bool)
    (mixer : AudioPlayer.Mixer) (p : AudioPlayer.Path) :
  snd (let '(is_playing, stopped) := AudioPlayer.stop is_playing mixer in
       if AudioPlayer.load_raises mixer then
         (is_playing, (stopped ++ [AudioPlayer.MusicLoad p])%list)
       else
         let loops := if loop then (-1)%Z else 0%Z in
         let calls :=
           (stopped ++ [AudioPlayer.MusicLoad p;
                        AudioPlayer.MusicPlay loops])%list in
         if AudioPlayer.play_raises mixer then (is_playing, calls)
         else (true, calls))
  = ([AudioPlayer.MusicStop; AudioPlayer.MusicLoad p] ++
     if AudioPlayer.load_raises mixer then []
     else [AudioPlayer.MusicPlay (if loop then (-1)%Z else 0%Z)])%list.
Proof.
  unfold AudioPlayer.stop.
  destruct (AudioPlayer.stop_raises mixer), (AudioPlayer.load_raises mixer),
    (AudioPlayer.play_raises mixer); reflexivity.
Qed.

(** C4 (amended): both resolutions have two tiers and end in a no-op.
    Images: a meme of the non-empty bucket of the lower-cased label; failing
    that a meme of the non-empty [neutral] bucket; failing that none, and
    [display_meme] does nothing.  Sounds: the file cached under the
    lower-cased label; failing that the file of the first cached key, in
    cache order, that contains the label or is contained in it; failing that
    nothing is played.  The resolved file is loaded after a stop and then
    played, the play being skipped only when loading raises. *)
Theorem resolution_two_tiers :
  (forall (meme_cache : Py.dict (list MemeManager.Path)) (label : string)
          (duration : Q) (rnd : nat),
     let exact := Py.get meme_cache (Py.lower label) in
     let neutral := Py.get meme_cache "neutral" in
     let found := MemeManager.get_random_meme meme_cache label rnd in
     (forall memes, exact = Some memes -> memes <> [] ->
        exists m, found = Some m /\ In m memes) /\
     (no_memes exact ->
      forall memes, neutral = Some memes -> memes <> [] ->
        exists m, found = Some m /\ In m memes) /\
     (no_memes exact -> no_memes neutral ->
      found = None /\
      MemeManager.display_meme meme_cache label duration rnd = [])) /\
  (forall (sound_cache : Py.dict AudioPlayer.Path) (is_playing : bool)
          (label : string) (loop : bool) (mixer : AudioPlayer.Mixer),
     let exact := Py.get sound_cache (Py.lower label) in
     let played :=
       snd (AudioPlayer.play_emotion_sound sound_cache is_playing label loop
              mixer) in
     let play_of p :=
       ([AudioPlayer.MusicStop; AudioPlayer.MusicLoad p] ++
        if AudioPlayer.load_raises mixer then []
        else [AudioPlayer.MusicPlay (if loop then (-1)%Z else 0%Z)])%list in
     (forall p, exact = Some p -> played = play_of p) /\
     (exact = None ->
      forall pre k post,
        Py.keys sound_cache = (pre ++ k :: post)%list ->
        Forall (fun k' => related (Py.lower label) k' = false) pre ->
        related (Py.lower label) k = true ->
        exists p, Py.get sound_cache k = Some p /\ played = play_of p) /\
     (exact = None ->
      Forall (fun k' => related (Py.lower label) k' = false)
             (Py.keys sound_cache) ->
      played = [])).
Proof.
  split.
  - intros meme_cache label duration rnd exact neutral found.
    subst exact neutral found.
    unfold MemeManager.display_meme, MemeManager.get_random_meme, no_memes.
    repeat split.
    + intros memes -> Hne. destruct memes as [|m ms]; [congruence|].
      apply choice_in. discriminate.
    + intros [-> | ->] memes -> Hne;
        (destruct memes as [|m ms]; [congruence|]);
        apply choice_in; discriminate.
    + destruct H as [-> | ->]; destruct H0 as [-> | ->]; reflexivity.
    + destruct H as [-> | ->]; destruct H0 as [-> | ->]; reflexivity.
  - intros sound_cache is_playing label loop mixer exact played play_of.
    subst exact played play_of.
    unfold AudioPlayer.play_emotion_sound, AudioPlayer.sound_key,
      AudioPlayer.partial_match.
    fold (related (Py.lower label)).
    repeat split.
    + intros p Hp. rewrite Hp, Hp. apply play_calls.
    + intros Hnone pre k post Hkeys Hpre Hk. rewrite Hnone, Hkeys.
      rewrite (find_first _ pre k post Hpre Hk).
      destruct (get_of_key sound_cache k) as [p Hp].
      { rewrite Hkeys. apply in_or_app. right. left. reflexivity. }
      exists p. rewrite Hp. split; [reflexivity | apply play_calls].
    + intros Hnone Hall. rewrite Hnone, (find_absent _ _ Hall). reflexivity.
Qed.

(** * Further properties of the controller *)

Lemma observe_all_cons_fst (self : Memey) (o : Observation)
    (os : list Observation) :
  fst (observe_all self (o :: os)) =
    fst (observe_all (fst (observe self o)) os).
Proof.
  simpl. destruct (observe self o) as [self1 effs]. simpl.
  destruct (observe_all self1 os) as [self2 fs]. reflexivity.
Qed.

(** X1: After any observation the controller's label is the label the
    observation carried after the threshold check, and the episode has a
    start time. *)
Theorem observe_tracks_label (self : Memey) (o : Observation) :
  let self' := fst (observe self o) in
  current_emotion self' = coerced self o /\
  emotion_start_time self' <> None /\
  sound_enabled self' = sound_enabled self.
Proof.
  destruct (observe_cases self o)
    as [(_ & ->) | [(He & _ & ->) | [(st & He & Hst & _ & _ & _ & _ & ->)
                                    | (st & He & Hst & ->)]]];
    simpl; repeat split; try congruence; try discriminate.
Qed.

(** An observation that meets all four trigger conditions does trigger. *)
Lemma observe_fires (self : Memey) (o : Observation) (start : Q) :
  coerced self o = current_emotion self ->
  current_emotion self <> "neutral" ->
  emotion_start_time self = Some start ->
  meme_triggered self = false ->
  emotion_hold_time self <= obs_time o - start ->
  meme_cooldown self <= obs_time o - last_meme_time self ->
  observe self o = _trigger_meme self (current_emotion self) (obs_clock o).
Proof.
  intros He Hn Hst Htr Hhold Hcool.
  unfold coerced in He.
  unfold observe, _process_emotion, cooldown_ok.
  rewrite He, String.eqb_refl, Hst, Htr. cbn [negb].
  apply String.eqb_neq in Hn. rewrite Hn.
  apply Py_ge_iff in Hhold. apply Py_ge_iff in Hcool.
  rewrite Hhold, Hcool. reflexivity.
Qed.

(** An observation of the current label that misses the hold time or the
    cooldown changes nothing. *)
Lemma observe_waits (self : Memey) (o : Observation) (start : Q) :
  coerced self o = current_emotion self ->
  emotion_start_time self = Some start ->
  obs_time o - start < emotion_hold_time self \/
  obs_time o - last_meme_time self < meme_cooldown self ->
  observe self o = (self, []).
Proof.
  intros He Hst Hmiss.
  destruct (observe_cases self o)
    as [(Hne & _) | [(_ & Hnone & _) | [(st & _ & Hst' & _ & Hh & _ & Hc & _)
                                       | (st & _ & _ & Heq)]]].
  - contradiction.
  - congruence.
  - assert (st = start) by congruence. subst st.
    destruct Hmiss as [Hm | Hm]; exfalso; lra.
  - exact Heq.
Qed.

(** X2: In an episode of a non-neutral label that has a start time and has not
    triggered yet, a run of observations carrying that label triggers exactly
    once: at the first observation for which both the hold time and the
    cooldown have elapsed. *)
Theorem sustained_episode_fires_once (self : Memey) (start : Q)
    (pre : list Observation) (o : Observation) (post : list Observation) :
  current_emotion self <> "neutral" ->
  emotion_start_time self = Some start ->
  meme_triggered self = false ->
  Forall (fun o' => coerced self o' = current_emotion self)
         (pre ++ o :: post) ->
  Forall (fun o' => obs_time o' - start < emotion_hold_time self \/
                    obs_time o' - last_meme_time self < meme_cooldown self)
         pre ->
  emotion_hold_time self <= obs_time o - start ->
  meme_cooldown self <= obs_time o - last_meme_time self ->
  snd (observe_all self (pre ++ o :: post))
    = [mkFire (obs_time o) (current_emotion self)].
Proof.
  intros Hn Hst Htr Hall Hpre Hhold Hcool.
  induction pre as [|o' pre IH].
  - cbn [app] in *. inversion Hall as [|? ? Ho Hpost]; subst.
    rewrite observe_all_cons.
    rewrite (observe_fires self o start); auto.
    rewrite fires_at_trigger_meme.
    rewrite (silent_while_triggered self (current_emotion self)); auto.
  - cbn [app] in *.
    inversion Hall as [|? ? Ho' Hall']; subst.
    inversion Hpre as [|? ? Hmiss Hpre']; subst.
    rewrite observe_all_cons.
    rewrite (observe_waits self o' start); auto.
Qed.

Lemma sustained_episode_fires_once_witness :
  snd (observe_all
         (fst (observe __init__ (mkObs "happy" 0.9 100 100)))
         ([mkObs "happy" 0.9 101 101] ++
          mkObs "happy" 0.9 102 102 :: [mkObs "happy" 0.9 103 103]))
  = [mkFire 102 "happy"].
Proof.
  apply (sustained_episode_fires_once
           (fst (observe __init__ (mkObs "happy" 0.9 100 100))) 100
           [mkObs "happy" 0.9 101 101] (mkObs "happy" 0.9 102 102)
           [mkObs "happy" 0.9 103 103]).
  - vm_compute. discriminate.
  - reflexivity.
  - reflexivity.
  - repeat constructor.
  - constructor; [left; vm_compute; reflexivity | constructor].
  - vm_compute. discriminate.
  - vm_compute. discriminate.
Defined.

(** X3: A run of observations moves [last_meme_time] only by triggering: without
    a trigger it is unchanged, and otherwise it is the clock reading stored
    by one of the observations of the run. *)
Theorem last_meme_time_moves_only_on_fire (self : Memey)
    (os : list Observation) :
  (snd (observe_all self os) = [] ->
   last_meme_time (fst (observe_all self os)) = last_meme_time self) /\
  (last_meme_time (fst (observe_all self os)) = last_meme_time self \/
   exists o, In o os /\
     last_meme_time (fst (observe_all self os)) = obs_clock o /\
     In (obs_time o) (map fire_time (snd (observe_all self os)))).
Proof.
  revert self. induction os as [|o os IH]; intros self.
  - simpl. auto.
  - rewrite observe_all_cons, observe_all_cons_fst.
    destruct (IH (fst (observe self o))) as [IH1 IH2].
    destruct (observe_cases self o)
      as [(_ & Heq) | [(_ & _ & Heq) | [(st & _ & _ & _ & _ & _ & _ & Heq)
                                       | (st & _ & _ & Heq)]]];
      rewrite Heq in *.
    + cbn [fst snd fires_at trigger_labels flat_map map app] in *. split.
      * intros H. rewrite (IH1 H). reflexivity.
      * destruct IH2 as [IH2 | (o' & Hin & Hl & Ht)].
        -- left. rewrite IH2. reflexivity.
        -- right. exists o'. split; [right; exact Hin|]. split; assumption.
    + cbn [fst snd fires_at trigger_labels flat_map map app] in *. split.
      * intros H. rewrite (IH1 H). reflexivity.
      * destruct IH2 as [IH2 | (o' & Hin & Hl & Ht)].
        -- left. rewrite IH2. reflexivity.
        -- right. exists o'. split; [right; exact Hin|]. split; assumption.
    + rewrite fires_at_trigger_meme. split.
      * intros H. discriminate H.
      * right. destruct IH2 as [IH2 | (o' & Hin & Hl & Ht)].
        -- exists o. split; [left; reflexivity|]. split.
           ++ rewrite IH2. reflexivity.
           ++ left. reflexivity.
        -- exists o'. split; [right; exact Hin|]. split; [exact Hl|].
           right. exact Ht.
    + cbn [fst snd fires_at trigger_labels flat_map map app] in *.
      split; [exact IH1|].
      destruct IH2 as [IH2 | (o' & Hin & Hl & Ht)].
      * left. exact IH2.
      * right. exists o'. split; [right; exact Hin|]. split; assumption.
Qed.

(** * Keys *)

(** X4: The R key emits nothing, keeps the loop going, keeps the label and
    [last_meme_time], and clears the start time and the triggered flag; the
    next observation only restarts the episode clock, so that every later
    trigger comes a full hold time after that observation (for observations
    not read earlier than it). *)
Theorem reset_timer_restarts_hold (self : Memey) (key : Z) (label : string)
    (clock : Q) (o : Observation) (os : list Observation) :
  key = Py.ord "r" \/ key = Py.ord "R" ->
  Forall (fun o' => obs_time o <= obs_time o') os ->
  let '(self', effs, continue) := _handle_key self key label clock in
  effs = [] /\ continue = true /\
  current_emotion self' = current_emotion self /\
  emotion_start_time self' = None /\
  meme_triggered self' = false /\
  last_meme_time self' = last_meme_time self /\
  snd (observe self' o) = [] /\
  Forall (fun f => emotion_hold_time self <= fire_time f - obs_time o)
         (snd (observe_all self' (o :: os))).
Proof.
  intros Hkey Hall.
  assert (Hk : _handle_key self key label clock =
               (set_meme_triggered (set_emotion_start_time self None) false,
                [], true))
    by (destruct Hkey as [-> | ->]; reflexivity).
  rewrite Hk. set (s1 := set_meme_triggered _ false).
  repeat split.
  - destruct (observe_cases s1 o)
      as [(_ & ->) | [(_ & _ & ->) | [(st & _ & Hst & _) | (st & _ & Hst & _)]]];
      try reflexivity; discriminate Hst.
  - rewrite observe_all_cons.
    destruct (observe_cases s1 o)
      as [(_ & Heq) | [(_ & _ & Heq) | [(st & _ & Hst & _)
                                       | (st & _ & Hst & _)]]];
      try discriminate Hst; rewrite Heq; simpl;
      apply (fires_after_hold (obs_time o) _ os _ (obs_time o));
      auto; apply Qle_refl.
Qed.

Lemma reset_timer_restarts_hold_witness :
  Forall (fun f => emotion_hold_time __init__ <= fire_time f - 103)
    (snd (observe_all
            (fst (fst (_handle_key
                         (fst (observe __init__ (mkObs "happy" 0.9 100 100)))
                         (Py.ord "r") "happy" 0)))
            [mkObs "happy" 0.9 103 103; mkObs "happy" 0.9 104 104;
             mkObs "happy" 0.9 105 105])).
Proof.
  pose proof (reset_timer_restarts_hold
                (fst (observe __init__ (mkObs "happy" 0.9 100 100)))
                (Py.ord "r") "happy" 0 (mkObs "happy" 0.9 103 103)
                [mkObs "happy" 0.9 104 104; mkObs "happy" 0.9 105 105]
                (or_introl eq_refl)
                ltac:(repeat constructor; vm_compute; discriminate)) as H.
  destruct (_handle_key (fst (observe __init__ (mkObs "happy" 0.9 100 100)))
              (Py.ord "r") "happy" 0) as [[self' effs] continue].
  destruct H as (_ & _ & _ & _ & _ & _ & _ & H). exact H.
Defined.

(** X5: Pressing the sound key twice restores the controller exactly, and
    the two presses together stop the audio exactly once. *)
Theorem sound_toggle_twice (self : Memey) (key1 key2 : Z)
    (label1 label2 : string) (clock1 clock2 : Q) :
  key1 = Py.ord "s" \/ key1 = Py.ord "S" ->
  key2 = Py.ord "s" \/ key2 = Py.ord "S" ->
  let '(self1, effs1, continue1) := _handle_key self key1 label1 clock1 in
  let '(self2, effs2, continue2) := _handle_key self1 key2 label2 clock2 in
  self2 = self /\ (effs1 ++ effs2)%list = [AudioStop] /\
  sound_enabled self1 = negb (sound_enabled self) /\
  continue1 = true /\ continue2 = true.
Proof.
  intros [-> | ->] [-> | ->]; destruct self as [di ht mc dd ct se ce st mt lt];
    destruct se; cbn; repeat split; reflexivity.
Qed.

Lemma sound_toggle_twice_witness :
  let '(self1, effs1, continue1) := _handle_key __init__ (Py.ord "s") "sad" 1 in
  let '(self2, effs2, continue2) := _handle_key self1 (Py.ord "S") "sad" 2 in
  self2 = __init__ /\ (effs1 ++ effs2)%list = [AudioStop] /\
  sound_enabled self1 = negb (sound_enabled __init__) /\
  continue1 = true /\ continue2 = true.
Proof.
  exact (sound_toggle_twice __init__ (Py.ord "s") (Py.ord "S") "sad" "sad" 1 2
           (or_introl eq_refl) (or_intror eq_refl)).
Defined.

(** X6: What a key can do: only ESC ends the loop, only M and m trigger, only S
    and s change [sound_enabled], only R, r, M and m change the triggered
    flag or the timestamps, and no key changes the label or the timing
    settings. *)
Theorem handle_key_footprint (self : Memey) (key : Z) (label : string)
    (clock : Q) :
  let '(self', effs, continue) := _handle_key self key label clock in
  (continue = false <-> key = 27%Z) /\
  (trigger_labels effs <> [] <-> key = Py.ord "m" \/ key = Py.ord "M") /\
  (sound_enabled self' <> sound_enabled self <->
   key = Py.ord "s" \/ key = Py.ord "S") /\
  (key <> Py.ord "r" -> key <> Py.ord "R" ->
   key <> Py.ord "m" -> key <> Py.ord "M" ->
   emotion_start_time self' = emotion_start_time self /\
   meme_triggered self' = meme_triggered self /\
   last_meme_time self' = last_meme_time self) /\
  current_emotion self' = current_emotion self /\
  emotion_hold_time self' = emotion_hold_time self /\
  meme_cooldown self' = meme_cooldown self /\
  confidence_threshold self' = confidence_threshold self /\
  meme_display_duration self' = meme_display_duration self.
Proof.
  unfold _handle_key.
  destruct (Z.eqb_spec key 27) as [-> | H27].
  { cbn. repeat split; try tauto; try discriminate;
      try (intros [H | H]; discriminate H). }
  destruct (Z.eqb_spec key (Py.ord "r")) as [-> | Hr].
  { cbn. repeat split; try tauto; try discriminate;
      try (intros [H | H]; discriminate H). }
  destruct (Z.eqb_spec key (Py.ord "R")) as [-> | HR].
  { cbn. repeat split; try tauto; try discriminate;
      try (intros [H | H]; discriminate H). }
  cbn [orb].
  destruct (Z.eqb_spec key (Py.ord "m")) as [-> | Hm].
  { cbn [orb _trigger_meme].
    destruct (sound_enabled self) eqn:Es; cbn; rewrite ?Es;
      repeat split; try tauto; try discriminate;
      try (intros [H | H]; discriminate H). }
  destruct (Z.eqb_spec key (Py.ord "M")) as [-> | HM].
  { cbn [orb _trigger_meme].
    destruct (sound_enabled self) eqn:Es; cbn; rewrite ?Es;
      repeat split; try tauto; try discriminate;
      try (intros [H | H]; discriminate H). }
  cbn [orb].
  destruct (Z.eqb_spec key (Py.ord "s")) as [-> | Hs].
  { cbn [orb]. destruct (sound_enabled self) eqn:Es; cbn; rewrite ?Es;
      repeat split; try tauto; try discriminate;
      try (intros [H | H]; discriminate H). }
  destruct (Z.eqb_spec key (Py.ord "S")) as [-> | HS].
  { cbn [orb]. destruct (sound_enabled self) eqn:Es; cbn; rewrite ?Es;
      repeat split; try tauto; try discriminate;
      try (intros [H | H]; discriminate H). }
  cbn. repeat split; try tauto; try discriminate; try congruence.
Qed.

(** X7: A manual trigger uses up the automatic trigger of the running episode:
    after the M key, observations that carry the current label stay silent
    however long the label is held. *)
Theorem manual_trigger_silences_episode (self : Memey) (key : Z)
    (label : string) (clock : Q) (os : list Observation) :
  key = Py.ord "m" \/ key = Py.ord "M" ->
  Forall (fun o => coerced self o = current_emotion self) os ->
  snd (observe_all (fst (fst (_handle_key self key label clock))) os) = [].
Proof.
  intros Hkey Hall.
  apply (silent_while_triggered self (current_emotion self)); auto;
    destruct Hkey as [-> | ->]; reflexivity.
Qed.

Lemma manual_trigger_silences_episode_witness :
  snd (observe_all
         (fst (fst (_handle_key
                      (fst (observe __init__ (mkObs "happy" 0.9 100 100)))
                      (Py.ord "M") "happy" 101)))
         [mkObs "happy" 0.9 110 110; mkObs "happy" 0.9 120 120]) = [].
Proof.
  apply (manual_trigger_silences_episode
           (fst (observe __init__ (mkObs "happy" 0.9 100 100)))
           (Py.ord "M") "happy" 101).
  - right. reflexivity.
  - repeat constructor.
Defined.

(** * The main loop *)

(** X8: The loop ends at the first frame whose key, masked to eight bits, is
    ESC: the frames after it are never looked at. *)
Theorem run_stops_at_escape (self : Memey) (pre : list Frame) (f : Frame)
    (post : list Frame) :
  Z.land (frame_key f) 255 = 27%Z ->
  run self (pre ++ f :: post) = run self (pre ++ [f]).
Proof.
  intros Hesc. revert self.
  induction pre as [|g pre IH]; intros self.
  - cbn [app run]. unfold loop_body.
    destruct (observe self (frame_obs f)) as [self1 effs1].
    rewrite Hesc. cbn. reflexivity.
  - cbn [app run].
    destruct (loop_body self g) as [[self1 effs] continue].
    destruct continue; [|reflexivity].
    rewrite IH. reflexivity.
Qed.

Lemma run_stops_at_escape_witness :
  run __init__ ([] ++ mkFrame (mkObs "happy" 0.9 100 100) 27 0
                   :: [mkFrame (mkObs "happy" 0.9 103 103) 109 103])
  = run __init__ ([] ++ [mkFrame (mkObs "happy" 0.9 100 100) 27 0]).
Proof.
  apply (run_stops_at_escape __init__ []
           (mkFrame (mkObs "happy" 0.9 100 100) 27 0)
           [mkFrame (mkObs "happy" 0.9 103 103) 109 103]).
  reflexivity.
Defined.

Lemma handle_key_unbound (self : Memey) (key : Z) (label : string)
    (clock : Q) :
  ~ In key [27%Z; Py.ord "r"; Py.ord "R"; Py.ord "m"; Py.ord "M";
            Py.ord "s"; Py.ord "S"] ->
  _handle_key self key label clock = (self, [], true).
Proof.
  intros Hk. unfold _handle_key.
  repeat match goal with
         | |- context [Z.eqb key ?c] =>
             destruct (Z.eqb_spec key c) as [-> | ?];
             [exfalso; apply Hk; cbn; tauto|]
         end.
  reflexivity.
Qed.

(** X9: While no bound key is pressed (for instance no key at all, where
    [cv2.waitKey] answers -1), the loop is the controller fed with the
    observations: same final state and same triggers in the same order. *)
Theorem run_without_keys (self : Memey) (frames : list Frame) :
  Forall (fun f => ~ In (Z.land (frame_key f) 255)
                        [27%Z; Py.ord "r"; Py.ord "R"; Py.ord "m"; Py.ord "M";
                         Py.ord "s"; Py.ord "S"]) frames ->
  fst (run self frames) = fst (observe_all self (map frame_obs frames)) /\
  trigger_labels (snd (run self frames))
    = map fire_label (snd (observe_all self (map frame_obs frames))).
Proof.
  intros Hall. revert self.
  induction Hall as [|f frames Hf _ IH]; intros self; [split; reflexivity|].
  cbn [map]. rewrite observe_all_cons, observe_all_cons_fst.
  cbn [run]. unfold loop_body.
  destruct (observe self (frame_obs f)) as [self1 effs1].
  rewrite (handle_key_unbound _ _ _ _ Hf).
  destruct (IH self1) as [IH1 IH2].
  destruct (run self1 frames) as [self2 effs2].
  cbn [fst snd] in *. split; [exact IH1|].
  rewrite app_nil_r, trigger_labels_app, map_app, IH2.
  unfold fires_at. rewrite map_map. cbn [fire_label]. rewrite map_id.
  reflexivity.
Qed.

Lemma run_without_keys_witness :
  trigger_labels
    (snd (run __init__ [mkFrame (mkObs "happy" 0.9 100 100) (-1) 0;
                        mkFrame (mkObs "happy" 0.9 103 103) (-1) 0]))
  = map fire_label
      (snd (observe_all __init__
              (map frame_obs [mkFrame (mkObs "happy" 0.9 100 100) (-1) 0;
                              mkFrame (mkObs "happy" 0.9 103 103) (-1) 0]))).
Proof.
  apply (run_without_keys __init__
           [mkFrame (mkObs "happy" 0.9 100 100) (-1) 0;
            mkFrame (mkObs "happy" 0.9 103 103) (-1) 0]).
  repeat constructor; vm_compute; intuition discriminate.
Defined.

(** X10: The timing settings are read-only: whatever the frames and keys, the
    loop leaves hold time, cooldown, threshold, display duration and
    detection interval as they were. *)
Theorem run_preserves_settings (frames : list Frame) (self : Memey) :
  let self' := fst (run self frames) in
  emotion_hold_time self' = emotion_hold_time self /\
  meme_cooldown self' = meme_cooldown self /\
  confidence_threshold self' = confidence_threshold self /\
  meme_display_duration self' = meme_display_duration self /\
  detection_interval self' = detection_interval self.
Proof.
  revert self. induction frames as [|f frames IH]; intros self.
  - cbn. repeat split.
  - cbn [run]. unfold loop_body.
    assert (Ho : let s1 := fst (observe self (frame_obs f)) in
                 emotion_hold_time s1 = emotion_hold_time self /\
                 meme_cooldown s1 = meme_cooldown self /\
                 confidence_threshold s1 = confidence_threshold self /\
                 meme_display_duration s1 = meme_display_duration self /\
                 detection_interval s1 = detection_interval self).
    { destruct (observe_cases self (frame_obs f))
        as [(_ & ->) | [(_ & _ & ->) | [(st & _ & _ & _ & _ & _ & _ & ->)
                                       | (st & _ & _ & ->)]]];
        cbn; repeat split. }
    destruct (observe self (frame_obs f)) as [self1 effs1].
    cbn [fst] in Ho. destruct Ho as (H1 & H2 & H3 & H4 & H5).
    assert (Hk : forall key label clock,
               let s2 := fst (fst (_handle_key self1 key label clock)) in
               emotion_hold_time s2 = emotion_hold_time self1 /\
               meme_cooldown s2 = meme_cooldown self1 /\
               confidence_threshold s2 = confidence_threshold self1 /\
               meme_display_duration s2 = meme_display_duration self1 /\
               detection_interval s2 = detection_interval self1).
    { intros key label clock. unfold _handle_key.
      destruct (key =? 27)%Z; [cbn; repeat split|].
      destruct ((key =? Py.ord "r")%Z || (key =? Py.ord "R")%Z);
        [cbn; repeat split|].
      destruct ((key =? Py.ord "m")%Z || (key =? Py.ord "M")%Z);
        [cbn; repeat split|].
      destruct ((key =? Py.ord "s")%Z || (key =? Py.ord "S")%Z);
        cbn; repeat split. }
    specialize (Hk (Z.land (frame_key f) 255) (obs_emotion (frame_obs f))
                  (frame_key_clock f)).
    destruct (_handle_key self1 (Z.land (frame_key f) 255)
                (obs_emotion (frame_obs f)) (frame_key_clock f))
      as [[self2 effs2] continue].
    cbn [fst] in Hk. destruct Hk as (K1 & K2 & K3 & K4 & K5).
    destruct continue.
    + specialize (IH self2). destruct (run self2 frames) as [self3 effs3].
      cbn [fst] in *. destruct IH as (I1 & I2 & I3 & I4 & I5).
      repeat split; congruence.
    + cbn [fst]. repeat split; congruence.
Qed.

(** * The status box *)

(** X11: Once something has triggered ([last_meme_time] positive), the status
    line shows [Ready] exactly when the cooldown test of the controller
    passes; before that it always shows [Ready]; and a displayed cooldown is
    positive and is what remains of [meme_cooldown]. *)
Theorem status_agrees_with_cooldown (self : Memey) (now : Q) :
  (0 < last_meme_time self ->
   (_draw_status_cooldown self now = Ready <-> cooldown_ok self now = true)) /\
  (last_meme_time self <= 0 -> _draw_status_cooldown self now = Ready) /\
  (forall r, _draw_status_cooldown self now = Cooldown r ->
     0 < r /\ r = meme_cooldown self - (now - last_meme_time self) /\
     cooldown_ok self now = false).
Proof.
  unfold _draw_status_cooldown, cooldown_ok, Py.max.
  set (x := meme_cooldown self - (now - last_meme_time self)).
  destruct (Py.gt x 0) eqn:Hx.
  - rewrite Hx. apply Py_gt_iff in Hx. cbn [andb].
    destruct (Py.gt (last_meme_time self) 0) eqn:Hl.
    + apply Py_gt_iff in Hl. split; [|split].
      * intros _. split; intros Hr; [discriminate Hr|].
        apply Py_ge_iff in Hr. subst x. lra.
      * intros Hle. lra.
      * intros r Hr. injection Hr as <-. split; [exact Hx|].
        split; [reflexivity|]. apply Py_ge_false_iff. subst x. lra.
    + apply Py_lt_false_iff in Hl. split; [|split].
      * intros Hpos. lra.
      * intros _. reflexivity.
      * intros r Hr. discriminate Hr.
  - assert (H0 : Py.gt 0 0 = false) by reflexivity. rewrite H0. cbn [andb].
    unfold Py.gt in Hx. apply Py_lt_false_iff in Hx. split; [|split].
    + intros _. split; intros _; [|reflexivity].
      apply Py_ge_iff. subst x. lra.
    + intros _. reflexivity.
    + intros r Hr. discriminate Hr.
Qed.

Lemma Py_int_nonneg (x : Q) : 0 <= x -> Py.int x = Qfloor x.
Proof.
  intros H. unfold Py.int. apply Qle_bool_iff in H. rewrite H. reflexivity.
Qed.

Lemma Py_min_one (x : Q) :
  Py.min x 1.0 <= 1 /\ Py.min x 1.0 <= x /\
  (1 <= x -> Py.min x 1.0 == 1) /\ (x <= 1 -> Py.min x 1.0 == x).
Proof.
  unfold Py.min. destruct (Py.lt 1.0 x) eqn:E.
  - apply Py_lt_iff in E. repeat split; intros; lra.
  - apply Py_lt_false_iff in E. repeat split; intros; lra.
Qed.

(** X12: In an episode of a non-neutral label with a non-zero start time, a
    positive hold time and a clock not before the start, the status box
    shows a progress in [0, 1] and a green bar of 0 to 230 pixels, and the
    bar is full exactly when the hold condition of the controller holds. *)
Theorem hold_bar_bounds (self : Memey) (now start : Q) :
  emotion_start_time self = Some start ->
  ~ start == 0 ->
  current_emotion self <> "neutral" ->
  0 < emotion_hold_time self ->
  start <= now ->
  exists progress fill,
    _draw_status_hold self now = Hold (now - start) progress fill /\
    0 <= progress <= 1 /\
    (0 <= fill <= 230)%Z /\
    (fill = 230%Z <-> emotion_hold_time self <= now - start).
Proof.
  intros Hst Hnz Hne Hpos Hle.
  unfold _draw_status_hold. rewrite Hst.
  assert (Ht : Py.truthy start = true).
  { unfold Py.truthy. destruct (Qeq_bool start 0) eqn:E; [|reflexivity].
    apply Qeq_bool_iff in E. contradiction. }
  rewrite Ht. apply String.eqb_neq in Hne. rewrite Hne. cbn [negb andb].
  destruct (Qeq_bool (emotion_hold_time self) 0) eqn:E0.
  { apply Qeq_bool_iff in E0. lra. }
  set (h := emotion_hold_time self) in *.
  set (p := Py.min ((now - start) / h) 1.0).
  destruct (Py_min_one ((now - start) / h)) as (P1 & P2 & P3 & P4).
  fold p in P1, P2, P3, P4.
  assert (Hq : 0 <= (now - start) / h).
  { apply Qle_shift_div_l; [exact Hpos | lra]. }
  assert (Hp0 : 0 <= p).
  { destruct (Qlt_le_dec 1 ((now - start) / h)) as [Hgt | Hsm].
    - rewrite P3; lra.
    - rewrite P4; lra. }
  exists p, (Py.int (230 * p)). split; [reflexivity|].
  split; [split; assumption|].
  rewrite Py_int_nonneg by lra.
  assert (Hlo : (0 <= Qfloor (230 * p))%Z)
    by (apply (Qfloor_resp_le 0 (230 * p)); lra).
  assert (Hhi : (Qfloor (230 * p) <= 230)%Z)
    by (apply (Qfloor_resp_le (230 * p) 230); lra).
  split; [split; assumption|].
  split.
  - intros Hfull.
    pose proof (Qfloor_le (230 * p)) as Hf. rewrite Hfull in Hf.
    change (230 <= 230 * p) in Hf.
    assert (Hp1 : 1 <= p) by lra.
    assert (Hx : 1 <= (now - start) / h) by lra.
    apply (Qmult_le_compat_r _ _ h) in Hx; [|lra].
    unfold Qdiv in Hx. rewrite <- Qmult_assoc, (Qmult_comm (/ h)) in Hx.
    rewrite Qmult_inv_r in Hx by lra. lra.
  - intros Hhold.
    assert (Hx : 1 <= (now - start) / h).
    { apply Qle_shift_div_l; [exact Hpos | lra]. }
    assert (Hp1 : p == 1) by (apply P3; exact Hx).
    assert (H230 : (230 <= Qfloor (230 * p))%Z)
      by (apply (Qfloor_resp_le 230 (230 * p)); lra).
    lia.
Qed.

Lemma hold_bar_bounds_witness :
  exists progress fill,
    _draw_status_hold (fst (observe __init__ (mkObs "happy" 0.9 100 100))) 101
      = Hold (101 - 100) progress fill /\
    0 <= progress <= 1 /\
    (0 <= fill <= 230)%Z /\
    (fill = 230%Z <->
     emotion_hold_time (fst (observe __init__ (mkObs "happy" 0.9 100 100)))
       <= 101 - 100).
Proof.
  apply (hold_bar_bounds (fst (observe __init__ (mkObs "happy" 0.9 100 100)))
           101 100).
  - reflexivity.
  - vm_compute. discriminate.
  - vm_compute. discriminate.
  - vm_compute. reflexivity.
  - vm_compute. discriminate.
Defined.

(** X13: Edge cases of the hold line: without a start time, with a start time of
    exactly zero, or under the label [neutral] it shows the waiting text; in
    any other episode a hold time of zero makes the division raise. *)
Theorem hold_status_edge_cases (self : Memey) (now : Q) :
  (emotion_start_time self = None -> _draw_status_hold self now = Waiting) /\
  (forall start, emotion_start_time self = Some start -> start == 0 ->
     _draw_status_hold self now = Waiting) /\
  (current_emotion self = "neutral" -> _draw_status_hold self now = Waiting) /\
  (forall start, emotion_start_time self = Some start -> ~ start == 0 ->
     current_emotion self <> "neutral" -> emotion_hold_time self == 0 ->
     _draw_status_hold self now = HoldZeroDivisionError).
Proof.
  unfold _draw_status_hold, Py.truthy. repeat split.
  - intros ->. reflexivity.
  - intros start -> H0. apply Qeq_bool_iff in H0. rewrite H0. reflexivity.
  - intros ->. destruct (emotion_start_time self) as [start|]; [|reflexivity].
    cbn. rewrite andb_false_r. reflexivity.
  - intros start -> Hnz Hne H0.
    destruct (Qeq_bool start 0) eqn:E; [apply Qeq_bool_iff in E; contradiction|].
    apply String.eqb_neq in Hne. rewrite Hne. cbn [negb andb].
    apply Qeq_bool_iff in H0. rewrite H0. reflexivity.
Qed.

(** * The emotion detector *)

Lemma detect_output_is_cached (self : EmotionDetector.t) (now : Q)
    (analysis : EmotionDetector.Analysis) :
  let '(self', (emotion, confidence, _)) :=
    EmotionDetector.detect_emotion self now analysis in
  emotion = EmotionDetector.last_emotion self' /\
  confidence = EmotionDetector.last_confidence self'.
Proof.
  unfold EmotionDetector.detect_emotion.
  destruct (Py.lt _ _); [split; reflexivity|].
  cbn. destruct (EmotionDetector.analyzed analysis) as [results|]; cbn;
    split; reflexivity.
Qed.

(** X14: Whatever path [detect_emotion] takes (rate-limited, analysed, failed),
    the label and confidence it returns are the ones it leaves in its cache;
    the interval is untouched and the detection time is either kept or set
    to the clock reading of the call. *)
Theorem detect_returns_cache (self : EmotionDetector.t) (now : Q)
    (analysis : EmotionDetector.Analysis) :
  let '(self', (emotion, confidence, _)) :=
    EmotionDetector.detect_emotion self now analysis in
  emotion = EmotionDetector.last_emotion self' /\
  confidence = EmotionDetector.last_confidence self' /\
  EmotionDetector.detection_interval self'
    = EmotionDetector.detection_interval self /\
  (EmotionDetector.last_detection_time self'
     = EmotionDetector.last_detection_time self \/
   EmotionDetector.last_detection_time self' = now).
Proof.
  unfold EmotionDetector.detect_emotion.
  destruct (Py.lt _ _).
  - repeat split. left. reflexivity.
  - cbn. destruct (EmotionDetector.analyzed analysis) as [results|]; cbn;
      repeat split; right; reflexivity.
Qed.

(** X15: A call that is rate-limited, or whose analysis raises (or returns an
    empty list), answers with the label and confidence of the call before
    it; when rate-limited it also leaves the detector unchanged. *)
Theorem detect_repeats_previous (self : EmotionDetector.t) (t1 t2 : Q)
    (a1 a2 : EmotionDetector.Analysis) :
  let '(self1, (e1, c1, _)) := EmotionDetector.detect_emotion self t1 a1 in
  let '(self2, (e2, c2, d2)) := EmotionDetector.detect_emotion self1 t2 a2 in
  (t2 - EmotionDetector.last_detection_time self1
     < EmotionDetector.detection_interval self1 ->
   self2 = self1 /\ e2 = e1 /\ c2 = c1 /\ d2 = None) /\
  (EmotionDetector.analyzed a2 = None ->
   e2 = e1 /\ c2 = c1 /\ d2 = None).
Proof.
  pose proof (detect_output_is_cached self t1 a1) as H1.
  destruct (EmotionDetector.detect_emotion self t1 a1)
    as [self1 [[e1 c1] d1]].
  destruct H1 as (He & Hc).
  unfold EmotionDetector.detect_emotion.
  destruct (Py.lt (t2 - EmotionDetector.last_detection_time self1)
              (EmotionDetector.detection_interval self1)) eqn:Elim.
  - split; intros _; repeat split; congruence.
  - apply Py_lt_false_iff in Elim.
    destruct (EmotionDetector.analyzed a2) as [results|]; cbn; split.
    + intros Hlt. lra.
    + intros Hnone. discriminate Hnone.
    + intros Hlt. lra.
    + intros _. repeat split; congruence.
Qed.

(** X16: A failed analysis still uses up the rate-limit slot: the detection time
    moves to the failed call, and every call within the interval after it is
    answered from the cache whatever the analysis would give. *)
Theorem failed_analysis_consumes_slot (self : EmotionDetector.t) (now : Q)
    (analysis : EmotionDetector.Analysis) :
  EmotionDetector.detection_interval self
    <= now - EmotionDetector.last_detection_time self ->
  EmotionDetector.analyzed analysis = None ->
  let self' := fst (EmotionDetector.detect_emotion self now analysis) in
  EmotionDetector.last_detection_time self' = now /\
  EmotionDetector.last_emotion self' = EmotionDetector.last_emotion self /\
  EmotionDetector.last_confidence self'
    = EmotionDetector.last_confidence self /\
  forall (later : Q) (analysis' : EmotionDetector.Analysis),
    later - now < EmotionDetector.detection_interval self ->
    EmotionDetector.detect_emotion self' later analysis'
      = (self', (EmotionDetector.last_emotion self,
                 EmotionDetector.last_confidence self, None)).
Proof.
  intros Hgo Hfail. apply Py_lt_false_iff in Hgo.
  unfold EmotionDetector.detect_emotion at 1. rewrite Hgo, Hfail. cbn.
  repeat split. intros later analysis' Hlt.
  unfold EmotionDetector.detect_emotion. cbn.
  apply Py_lt_iff in Hlt. rewrite Hlt. reflexivity.
Qed.

Lemma failed_analysis_consumes_slot_witness :
  EmotionDetector.last_detection_time
    (fst (EmotionDetector.detect_emotion (EmotionDetector.__init__ 0.3) 100
            EmotionDetector.Raises)) = 100.
Proof.
  apply (failed_analysis_consumes_slot (EmotionDetector.__init__ 0.3) 100
           EmotionDetector.Raises).
  - vm_compute. discriminate.
  - reflexivity.
Defined.

Lemma get_default_in_range {V} (P : V -> Prop) (d : Py.dict V) (k : string)
    (default : V) :
  Forall (fun item => P (snd item)) d -> P default ->
  P (Py.get_default d k default).
Proof.
  intros Hd Hdef. unfold Py.get_default.
  induction Hd as [|[k' v] d Hv _ IH]; cbn; [exact Hdef|].
  destruct (String.eqb k k'); [exact Hv | exact IH].
Qed.

(** X17: When the analyser reports percentages, every confidence the detector
    returns, and the one it caches, lies in [0, 1], over any sequence of
    calls starting from a cache that does. *)
Theorem confidence_stays_in_unit_interval
    (calls : list (Q * EmotionDetector.Analysis)) (self : EmotionDetector.t) :
  0 <= EmotionDetector.last_confidence self <= 1 ->
  Forall (fun call => scores_are_percentages (snd call)) calls ->
  let '(self', outs) := EmotionDetector.detect_all self calls in
  0 <= EmotionDetector.last_confidence self' <= 1 /\
  Forall (fun out => 0 <= snd (fst out) <= 1) outs.
Proof.
  revert self. induction calls as [|[now analysis] calls IH];
    intros self Hc Hall.
  - cbn. split; [exact Hc | constructor].
  - inversion Hall as [|? ? Hhead Htail]; subst. cbn [snd] in Hhead.
    cbn [EmotionDetector.detect_all].
    assert (Hstep :
      let '(self1, out) := EmotionDetector.detect_emotion self now analysis in
      0 <= EmotionDetector.last_confidence self1 <= 1 /\
      0 <= snd (fst out) <= 1).
    { unfold EmotionDetector.detect_emotion.
      destruct (Py.lt _ _); [cbn; split; exact Hc|].
      unfold scores_are_percentages in Hhead. cbn.
      destruct (EmotionDetector.analyzed analysis) as [results|];
        [|cbn; split; exact Hc].
      cbn.
      assert (Hs : 0 <= Py.get_default
                         match EmotionDetector.result_emotion results with
                         | Some emotions => emotions
                         | None => []
                         end
                         match EmotionDetector.result_dominant_emotion results
                         with
                         | Some dominant_emotion => dominant_emotion
                         | None => "neutral"
                         end 0 <= 100).
      { apply (get_default_in_range (fun v => 0 <= v <= 100)).
        - destruct (EmotionDetector.result_emotion results);
            [exact Hhead | constructor].
        - lra. }
      set (score := Py.get_default _ _ 0) in *.
      assert (Hdiv : 0 <= score / 100.0 <= 1).
      { split.
        - apply Qle_shift_div_l; lra.
        - apply Qle_shift_div_r; lra. }
      split; exact Hdiv. }
    destruct (EmotionDetector.detect_emotion self now analysis)
      as [self1 out].
    destruct Hstep as [Hc1 Hout].
    specialize (IH self1 Hc1 Htail).
    destruct (EmotionDetector.detect_all self1 calls) as [self2 outs].
    destruct IH as [Hc2 Houts]. split; [exact Hc2|].
    constructor; assumption.
Qed.

Lemma confidence_stays_in_unit_interval_witness :
  let '(self', outs) :=
    EmotionDetector.detect_all (EmotionDetector.__init__ 0.3)
      [(100, EmotionDetector.ReturnsList
               [EmotionDetector.mkResult
                  (Some [("happy", 93.5); ("neutral", 6.5)]) (Some "happy")]);
       (100.1, EmotionDetector.Raises)] in
  0 <= EmotionDetector.last_confidence self' <= 1 /\
  Forall (fun out => 0 <= snd (fst out) <= 1) outs.
Proof.
  apply (confidence_stays_in_unit_interval
           [(100, EmotionDetector.ReturnsList
                    [EmotionDetector.mkResult
                       (Some [("happy", 93.5); ("neutral", 6.5)])
                       (Some "happy")]);
            (100.1, EmotionDetector.Raises)]
           (EmotionDetector.__init__ 0.3)).
  - vm_compute. split; discriminate.
  - repeat constructor; vm_compute; discriminate.
Defined.

(** X18: A result that lacks the score of its dominant emotion (or the whole
    score table) yields confidence zero under the reported label, [neutral]
    if that is lacking too; a controller with a positive threshold then
    treats the observation as [neutral]. *)
Theorem missing_score_is_no_signal (self : EmotionDetector.t) (now : Q)
    (analysis : EmotionDetector.Analysis) (results : EmotionDetector.Result)
    (controller : Memey) (t clock : Q) :
  EmotionDetector.detection_interval self
    <= now - EmotionDetector.last_detection_time self ->
  EmotionDetector.analyzed analysis = Some results ->
  (forall emotions label,
     EmotionDetector.result_emotion results = Some emotions ->
     EmotionDetector.result_dominant_emotion results = Some label ->
     Py.get emotions label = None) ->
  (forall emotions,
     EmotionDetector.result_emotion results = Some emotions ->
     EmotionDetector.result_dominant_emotion results = None ->
     Py.get emotions "neutral" = None) ->
  0 < confidence_threshold controller ->
  let '(_, (emotion, confidence, _)) :=
    EmotionDetector.detect_emotion self now analysis in
  emotion = match EmotionDetector.result_dominant_emotion results with
            | Some label => label
            | None => "neutral"
            end /\
  confidence == 0 /\
  coerced controller (mkObs emotion confidence t clock) = "neutral".
Proof.
  intros Hgo Han Hmiss1 Hmiss2 Hth. apply Py_lt_false_iff in Hgo.
  unfold EmotionDetector.detect_emotion. rewrite Hgo, Han. cbn.
  assert (Hs : Py.get_default
                 match EmotionDetector.result_emotion results with
                 | Some emotions => emotions
                 | None => []
                 end
                 match EmotionDetector.result_dominant_emotion results with
                 | Some dominant_emotion => dominant_emotion
                 | None => "neutral"
                 end 0 = 0).
  { unfold Py.get_default.
    destruct (EmotionDetector.result_emotion results) as [emotions|] eqn:Ee;
      [|reflexivity].
    destruct (EmotionDetector.result_dominant_emotion results) as [label|]
      eqn:Ed.
    - rewrite (Hmiss1 emotions label eq_refl eq_refl). reflexivity.
    - rewrite (Hmiss2 emotions eq_refl eq_refl). reflexivity. }
  rewrite Hs. split; [reflexivity|]. split; [reflexivity|].
  unfold coerced. cbn.
  assert (Hlt : Py.lt (0 / 100.0) (confidence_threshold controller) = true).
  { apply Py_lt_iff. assert (0 / 100.0 == 0) by reflexivity. lra. }
  rewrite Hlt. reflexivity.
Qed.

Lemma missing_score_is_no_signal_witness :
  let '(_, (emotion, confidence, _)) :=
    EmotionDetector.detect_emotion (EmotionDetector.__init__ 0.3) 100
      (EmotionDetector.ReturnsDict
         (EmotionDetector.mkResult None (Some "happy"))) in
  emotion = "happy" /\ confidence == 0 /\
  coerced __init__ (mkObs emotion confidence 100 100) = "neutral".
Proof.
  apply (missing_score_is_no_signal (EmotionDetector.__init__ 0.3) 100
           (EmotionDetector.ReturnsDict
              (EmotionDetector.mkResult None (Some "happy")))
           (EmotionDetector.mkResult None (Some "happy"))
           __init__ 100 100).
  - vm_compute. discriminate.
  - reflexivity.
  - intros emotions label H. discriminate H.
  - intros emotions H. discriminate H.
  - vm_compute. reflexivity.
Defined.

(** * The asset libraries *)

Lemma get_set_same {V} (d : Py.dict V) (k : string) (v : V) :
  Py.get (Py.set d k v) k = Some v.
Proof.
  induction d as [|[k' v'] d IH]; cbn.
  - rewrite String.eqb_refl. reflexivity.
  - destruct (String.eqb k k') eqn:E; cbn; rewrite E; [reflexivity | exact IH].
Qed.

Lemma get_set_other {V} (d : Py.dict V) (k k' : string) (v : V) :
  k' <> k -> Py.get (Py.set d k v) k' = Py.get d k'.
Proof.
  intros Hne. induction d as [|[k0 v0] d IH]; cbn.
  - apply String.eqb_neq in Hne. rewrite Hne. reflexivity.
  - destruct (String.eqb k k0) eqn:E; cbn.
    + apply String.eqb_eq in E. subst k0.
      apply String.eqb_neq in Hne. rewrite Hne. reflexivity.
    + destruct (String.eqb k' k0); [reflexivity | exact IH].
Qed.

Section Loading.

Context {X V : Type}.
Variable touch : X -> option (string * V).

Let step (d : Py.dict V) (x : X) : Py.dict V :=
  match touch x with
  | Some (k, v) => Py.set d k v
  | None => d
  end.

Lemma load_untouched (k : string) :
  forall (xs : list X) (d : Py.dict V),
    Forall (fun x => forall v, touch x <> Some (k, v)) xs ->
    Py.get (fold_left step xs d) k = Py.get d k.
Proof.
  induction xs as [|x xs IH]; intros d Hall; [reflexivity|].
  inversion Hall as [|? ? Hx Hxs]; subst. cbn [fold_left].
  rewrite IH by exact Hxs. unfold step.
  destruct (touch x) as [[k' v']|] eqn:E; [|reflexivity].
  apply get_set_other. intros ->. exact (Hx v' eq_refl).
Qed.

Lemma load_last_wins (k : string) (v : V) (pre : list X) (x : X)
    (post : list X) (d : Py.dict V) :
  touch x = Some (k, v) ->
  Forall (fun y => forall w, touch y <> Some (k, w)) post ->
  Py.get (fold_left step (pre ++ x :: post) d) k = Some v.
Proof.
  intros Hx Hpost. rewrite fold_left_app. cbn [fold_left].
  rewrite load_untouched by exact Hpost.
  unfold step at 1. rewrite Hx. apply get_set_same.
Qed.

Lemma load_sound (k : string) (v : V) :
  forall (xs : list X) (d : Py.dict V),
    Py.get (fold_left step xs d) k = Some v ->
    Py.get d k = Some v \/ exists x, In x xs /\ touch x = Some (k, v).
Proof.
  induction xs as [|x xs IH]; intros d Hget; [left; exact Hget|].
  cbn [fold_left] in Hget. apply IH in Hget.
  destruct Hget as [Hget | (y & Hin & Hy)].
  - unfold step in Hget. destruct (touch x) as [[k' v']|] eqn:E.
    + destruct (String.eqb_spec k k') as [<- | Hne].
      * rewrite get_set_same in Hget. injection Hget as ->.
        right. exists x. split; [left; reflexivity | exact E].
      * rewrite get_set_other in Hget by exact Hne. left. exact Hget.
    + left. exact Hget.
  - right. exists y. split; [right; exact Hin | exact Hy].
Qed.

End Loading.

Lemma fold_left_pointwise {A B} (f g : A -> B -> A) :
  (forall a b, f a b = g a b) ->
  forall (l : list B) (a : A), fold_left f l a = fold_left g l a.
Proof.
  intros Hfg. induction l as [|b l IH]; intros a; [reflexivity|].
  cbn. rewrite Hfg. apply IH.
Qed.

Lemma load_sound_library_as_fold (listing : list AudioPlayer.SoundFile) :
  AudioPlayer._load_sound_library listing =
  fold_left
    (fun d f =>
       match (if sound_supported f
              then Some (Py.lower (AudioPlayer.file_stem f),
                         AudioPlayer.file_path f)
              else None) with
       | Some (k, v) => Py.set d k v
       | None => d
       end) listing [].
Proof.
  unfold AudioPlayer._load_sound_library.
  apply fold_left_pointwise. intros d f. unfold sound_supported.
  destruct (existsb _ _); reflexivity.
Qed.

Lemma load_meme_library_as_fold (listing : list MemeManager.DirEntry) :
  MemeManager._load_meme_library listing =
  fold_left
    (fun d e =>
       match (if MemeManager.entry_is_dir e
              then Some (Py.lower (MemeManager.entry_name e), memes_of e)
              else None) with
       | Some (k, v) => Py.set d k v
       | None => d
       end) listing [].
Proof.
  unfold MemeManager._load_meme_library.
  apply fold_left_pointwise. intros d e.
  destruct (MemeManager.entry_is_dir e); reflexivity.
Qed.

Lemma sound_cache_origin (listing : list AudioPlayer.SoundFile)
    (k : string) (p : AudioPlayer.Path) :
  Py.get (AudioPlayer._load_sound_library listing) k = Some p ->
  exists f, In f listing /\ sound_supported f = true /\
            Py.lower (AudioPlayer.file_stem f) = k /\
            AudioPlayer.file_path f = p.
Proof.
  rewrite load_sound_library_as_fold. intros Hget.
  apply load_sound in Hget.
  destruct Hget as [Hget | (f & Hin & Hf)]; [discriminate Hget|].
  exists f. destruct (sound_supported f); [|discriminate Hf].
  injection Hf as Hk Hp. auto.
Qed.

Lemma meme_cache_origin (listing : list MemeManager.DirEntry)
    (k : string) (memes : list MemeManager.Path) :
  Py.get (MemeManager._load_meme_library listing) k = Some memes ->
  exists e, In e listing /\ MemeManager.entry_is_dir e = true /\
            Py.lower (MemeManager.entry_name e) = k /\
            memes = memes_of e.
Proof.
  rewrite load_meme_library_as_fold. intros Hget.
  apply load_sound in Hget.
  destruct Hget as [Hget | (e & Hin & He)]; [discriminate Hget|].
  exists e. destruct (MemeManager.entry_is_dir e); [|discriminate He].
  injection He as Hk Hm. auto.
Qed.

(** X19: Looking a key up in the loaded sound cache: the last supported file
    whose lower-cased stem is the key decides (two files such as
    [happy.mp3] and [HAPPY.wav] share a key); a key no supported file
    produces is absent; and every cached path is that of a supported file of
    the listing. *)
Theorem sound_library_lookup (listing : list AudioPlayer.SoundFile) :
  (forall pre f post,
     listing = (pre ++ f :: post)%list ->
     sound_supported f = true ->
     Forall (fun g => sound_supported g = true ->
                      Py.lower (AudioPlayer.file_stem g)
                        <> Py.lower (AudioPlayer.file_stem f)) post ->
     Py.get (AudioPlayer._load_sound_library listing)
            (Py.lower (AudioPlayer.file_stem f))
       = Some (AudioPlayer.file_path f)) /\
  (forall k,
     Forall (fun g => sound_supported g = true ->
                      Py.lower (AudioPlayer.file_stem g) <> k) listing ->
     Py.get (AudioPlayer._load_sound_library listing) k = None) /\
  (forall k p,
     Py.get (AudioPlayer._load_sound_library listing) k = Some p ->
     exists f, In f listing /\ sound_supported f = true /\
               Py.lower (AudioPlayer.file_stem f) = k /\
               AudioPlayer.file_path f = p).
Proof.
  rewrite load_sound_library_as_fold. split; [|split].
  - intros pre f post -> Hf Hpost.
    apply load_last_wins.
    + rewrite Hf. reflexivity.
    + eapply Forall_impl; [|exact Hpost]. cbn beta.
      intros g Hg w Hw. destruct (sound_supported g); [|discriminate Hw].
      injection Hw as Hk _. exact (Hg eq_refl Hk).
  - intros k Hall.
    rewrite load_untouched; [reflexivity|].
    eapply Forall_impl; [|exact Hall]. cbn beta.
    intros g Hg w Hw. destruct (sound_supported g); [|discriminate Hw].
    injection Hw as Hk _. exact (Hg eq_refl Hk).
  - intros k p Hget. rewrite <- load_sound_library_as_fold in Hget.
    exact (sound_cache_origin listing k p Hget).
Qed.

(** X20: The same for the meme cache: the last directory whose lower-cased name
    is the key decides the bucket, which holds exactly its files of a
    supported format; plain files of the memes directory and names no
    directory has give no bucket. *)
Theorem meme_library_lookup (listing : list MemeManager.DirEntry) :
  (forall pre e post,
     listing = (pre ++ e :: post)%list ->
     MemeManager.entry_is_dir e = true ->
     Forall (fun g => MemeManager.entry_is_dir g = true ->
                      Py.lower (MemeManager.entry_name g)
                        <> Py.lower (MemeManager.entry_name e)) post ->
     Py.get (MemeManager._load_meme_library listing)
            (Py.lower (MemeManager.entry_name e))
       = Some (memes_of e)) /\
  (forall k,
     Forall (fun g => MemeManager.entry_is_dir g = true ->
                      Py.lower (MemeManager.entry_name g) <> k) listing ->
     Py.get (MemeManager._load_meme_library listing) k = None) /\
  (forall k memes,
     Py.get (MemeManager._load_meme_library listing) k = Some memes ->
     exists e, In e listing /\ MemeManager.entry_is_dir e = true /\
               Py.lower (MemeManager.entry_name e) = k /\
               memes = memes_of e).
Proof.
  rewrite load_meme_library_as_fold. split; [|split].
  - intros pre e post -> He Hpost.
    apply load_last_wins.
    + rewrite He. reflexivity.
    + eapply Forall_impl; [|exact Hpost]. cbn beta.
      intros g Hg w Hw. destruct (MemeManager.entry_is_dir g);
        [|discriminate Hw].
      injection Hw as Hk _. exact (Hg eq_refl Hk).
  - intros k Hall.
    rewrite load_untouched; [reflexivity|].
    eapply Forall_impl; [|exact Hall]. cbn beta.
    intros g Hg w Hw. destruct (MemeManager.entry_is_dir g);
      [|discriminate Hw].
    injection Hw as Hk _. exact (Hg eq_refl Hk).
  - intros k memes Hget. rewrite <- load_meme_library_as_fold in Hget.
    exact (meme_cache_origin listing k memes Hget).
Qed.

Lemma get_random_meme_origin (meme_cache : Py.dict (list MemeManager.Path))
    (label : string) (rnd : nat) (m : MemeManager.Path) :
  MemeManager.get_random_meme meme_cache label rnd = Some m ->
  exists k memes,
    (k = Py.lower label \/ k = "neutral") /\
    Py.get meme_cache k = Some memes /\ In m memes.
Proof.
  unfold MemeManager.get_random_meme, Py.choice. intros H.
  destruct (Py.get meme_cache (Py.lower label)) as [[|m0 ms]|] eqn:Eexact.
  - destruct (Py.get meme_cache "neutral") as [[|n0 ns]|] eqn:Eneu;
      try discriminate H.
    exists "neutral", (n0 :: ns). repeat split; auto.
    eapply nth_error_In; eauto.
  - exists (Py.lower label), (m0 :: ms). repeat split; auto.
    eapply nth_error_In; eauto.
  - destruct (Py.get meme_cache "neutral") as [[|n0 ns]|] eqn:Eneu;
      try discriminate H.
    exists "neutral", (n0 :: ns). repeat split; auto.
    eapply nth_error_In; eauto.
Qed.

(** X21: Whatever meme is picked from a loaded library is a file of a supported
    format that sits in a directory of the library named, up to case, like
    the requested label or like [neutral]. *)
Theorem picked_meme_comes_from_library (listing : list MemeManager.DirEntry)
    (label : string) (rnd : nat) (m : MemeManager.Path) :
  MemeManager.get_random_meme (MemeManager._load_meme_library listing)
    label rnd = Some m ->
  exists e suffix,
    In e listing /\ MemeManager.entry_is_dir e = true /\
    (Py.lower (MemeManager.entry_name e) = Py.lower label \/
     Py.lower (MemeManager.entry_name e) = "neutral") /\
    In (suffix, m) (MemeManager.entry_files e) /\
    In (Py.lower suffix) MemeManager.SUPPORTED_FORMATS.
Proof.
  intros H. apply get_random_meme_origin in H.
  destruct H as (k & memes & Hk & Hget & Hin).
  destruct (meme_cache_origin listing k memes Hget)
    as (e & He & Hdir & Hname & ->).
  unfold memes_of in Hin. apply in_map_iff in Hin.
  destruct Hin as ([suffix path] & Hpath & Hfile). cbn in Hpath. subst path.
  apply filter_In in Hfile. destruct Hfile as [Hfile Hsup].
  unfold meme_supported in Hsup. apply existsb_exists in Hsup.
  destruct Hsup as (fmt & Hfmt & Heq). cbn [fst] in Heq.
  apply String.eqb_eq in Heq. subst fmt.
  exists e, suffix. repeat split; auto.
  destruct Hk as [-> | ->]; [left | right]; exact Hname.
Qed.

Lemma picked_meme_comes_from_library_witness :
  exists e suffix,
    In e [MemeManager.mkDirEntry "Happy" true
            [(".PNG", "Happy/a.PNG"); (".txt", "Happy/readme.txt")]] /\
    MemeManager.entry_is_dir e = true /\
    (Py.lower (MemeManager.entry_name e) = Py.lower "HAPPY" \/
     Py.lower (MemeManager.entry_name e) = "neutral") /\
    In (suffix, "Happy/a.PNG") (MemeManager.entry_files e) /\
    In (Py.lower suffix) MemeManager.SUPPORTED_FORMATS.
Proof.
  apply (picked_meme_comes_from_library
           [MemeManager.mkDirEntry "Happy" true
              [(".PNG", "Happy/a.PNG"); (".txt", "Happy/readme.txt")]]
           "HAPPY" 7 "Happy/a.PNG").
  reflexivity.
Defined.

Lemma sound_key_in_cache (sound_cache : Py.dict AudioPlayer.Path)
    (label k : string) :
  AudioPlayer.sound_key sound_cache label = Some k ->
  In k (Py.keys sound_cache) /\
  (k = Py.lower label \/ related (Py.lower label) k = true).
Proof.
  unfold AudioPlayer.sound_key. intros Ekey.
  destruct (Py.get sound_cache (Py.lower label)) as [p|] eqn:Eget.
  - injection Ekey as <-. split; [|left; reflexivity].
    clear -Eget. induction sound_cache as [|[k' v'] d IH];
      [discriminate Eget|].
    cbn in Eget |- *. destruct (String.eqb_spec (Py.lower label) k').
    + left. auto.
    + right. auto.
  - unfold AudioPlayer.partial_match in Ekey. apply find_some in Ekey.
    destruct Ekey as [Hin Hrel]. split; [exact Hin | right; exact Hrel].
Qed.

Lemma play_flag (is_playing : bool) (loop : bool)
    (mixer : AudioPlayer.Mixer) (p : AudioPlayer.Path) :
  fst (let '(is_playing, stopped) := AudioPlayer.stop is_playing mixer in
       if AudioPlayer.load_raises mixer then
         (is_playing, (stopped ++ [AudioPlayer.MusicLoad p])%list)
       else
         let loops := if loop then (-1)%Z else 0%Z in
         let calls :=
           (stopped ++ [AudioPlayer.MusicLoad p;
                        AudioPlayer.MusicPlay loops])%list in
         if AudioPlayer.play_raises mixer then (is_playing, calls)
         else (true, calls))
  = if AudioPlayer.load_raises mixer || AudioPlayer.play_raises mixer
    then (if AudioPlayer.stop_raises mixer then is_playing else false)
    else true.
Proof.
  unfold AudioPlayer.stop.
  destruct (AudioPlayer.stop_raises mixer), (AudioPlayer.load_raises mixer),
    (AudioPlayer.play_raises mixer); reflexivity.
Qed.

(** X22: [play_emotion_sound] never looks up a key the cache lacks, whatever
    the mixer does.  Either no key is resolved, and then the mixer is not
    touched and [is_playing] is kept (a sound that is playing is not
    stopped); or the resolved key is cached and is the lower-cased label or
    a key related to it by containment, the mixer is asked to stop and to
    load that key's file, it is asked to play exactly when loading did not
    raise, and [is_playing] ends true exactly when neither loading nor
    playing raised (otherwise it is what [stop] left). *)
Theorem play_emotion_sound_total (sound_cache : Py.dict AudioPlayer.Path)
    (is_playing : bool) (label : string) (loop : bool)
    (mixer : AudioPlayer.Mixer) :
  (AudioPlayer.sound_key sound_cache label = None /\
   AudioPlayer.play_emotion_sound sound_cache is_playing label loop mixer
     = (is_playing, [])) \/
  (exists k p,
     AudioPlayer.sound_key sound_cache label = Some k /\
     In k (Py.keys sound_cache) /\
     (k = Py.lower label \/ related (Py.lower label) k = true) /\
     Py.get sound_cache k = Some p /\
     snd (AudioPlayer.play_emotion_sound sound_cache is_playing label loop
            mixer) =
       ([AudioPlayer.MusicStop; AudioPlayer.MusicLoad p] ++
        if AudioPlayer.load_raises mixer then []
        else [AudioPlayer.MusicPlay (if loop then (-1)%Z else 0%Z)])%list /\
     fst (AudioPlayer.play_emotion_sound sound_cache is_playing label loop
            mixer) =
       if AudioPlayer.load_raises mixer || AudioPlayer.play_raises mixer
       then (if AudioPlayer.stop_raises mixer then is_playing else false)
       else true).
Proof.
  unfold AudioPlayer.play_emotion_sound.
  destruct (AudioPlayer.sound_key sound_cache label) as [k|] eqn:Ekey;
    [right | left; split; reflexivity].
  pose proof (sound_key_in_cache sound_cache label k Ekey) as Hk.
  destruct Hk as [Hin Hrel].
  destruct (get_of_key sound_cache k Hin) as [p Hp].
  exists k, p. rewrite Hp.
  split; [reflexivity|]. split; [exact Hin|]. split; [exact Hrel|].
  split; [reflexivity|]. split; [apply play_calls | apply play_flag].
Qed.

Lemma str_in_empty (s : string) : Py.str_in "" s = true.
Proof. destruct s; reflexivity. Qed.

(** X23: An empty label that is not itself a key matches every cached key, so
    the first sound of the cache is the one resolved: the mixer is asked to
    stop and to load it, and to play it unless loading raises. *)
Theorem empty_label_plays_first_sound (k0 : string) (p0 : AudioPlayer.Path)
    (rest : Py.dict AudioPlayer.Path) (is_playing loop : bool)
    (mixer : AudioPlayer.Mixer) :
  Py.get ((k0, p0) :: rest) "" = None ->
  snd (AudioPlayer.play_emotion_sound ((k0, p0) :: rest) is_playing "" loop
         mixer) =
    ([AudioPlayer.MusicStop; AudioPlayer.MusicLoad p0] ++
     if AudioPlayer.load_raises mixer then []
     else [AudioPlayer.MusicPlay (if loop then (-1)%Z else 0%Z)])%list.
Proof.
  intros Hnone.
  unfold AudioPlayer.play_emotion_sound, AudioPlayer.sound_key,
    AudioPlayer.partial_match.
  cbn [Py.lower]. rewrite Hnone. cbn [Py.keys map fst find].
  rewrite str_in_empty. cbn [orb].
  cbn [Py.get]. rewrite String.eqb_refl. apply play_calls.
Qed.

Lemma empty_label_plays_first_sound_witness :
  snd (AudioPlayer.play_emotion_sound
         [("sad", "sad.mp3"); ("happy", "happy.wav")] true "" false
         (AudioPlayer.mkMixer false true false))
  = ([AudioPlayer.MusicStop; AudioPlayer.MusicLoad "sad.mp3"] ++ [])%list.
Proof.
  apply (empty_label_plays_first_sound "sad" "sad.mp3"
           [("happy", "happy.wav")] true false
           (AudioPlayer.mkMixer false true false)).
  reflexivity.
Defined.

Lemma keys_set_in {V} (d : Py.dict V) (k k' : string) (v : V) :
  In k' (Py.keys (Py.set d k v)) -> k' = k \/ In k' (Py.keys d).
Proof.
  induction d as [|[k0 v0] d IH]; cbn.
  - intros [<- | []]. left. reflexivity.
  - destruct (String.eqb_spec k k0) as [-> | Hne]; cbn.
    + intros [<- | H]; right; auto.
    + intros [<- | H]; [right; left; reflexivity|].
      destruct (IH H); auto.
Qed.

Lemma keys_set_nodup {V} (d : Py.dict V) (k : string) (v : V) :
  NoDup (Py.keys d) -> NoDup (Py.keys (Py.set d k v)).
Proof.
  induction d as [|[k0 v0] d IH]; cbn; intros Hnd.
  - constructor; [intros [] | constructor].
  - inversion Hnd as [|? ? Hnotin Hnd']; subst.
    destruct (String.eqb_spec k k0) as [-> | Hne]; cbn.
    + constructor; assumption.
    + constructor; [|apply IH; exact Hnd'].
      intros Hin. apply keys_set_in in Hin. destruct Hin as [-> | Hin];
        [apply Hne; reflexivity | contradiction].
Qed.

(** The loaders build dictionaries: no key occurs twice. *)
Lemma loaded_keys_nodup :
  (forall listing, NoDup (Py.keys (MemeManager._load_meme_library listing))) /\
  (forall listing, NoDup (Py.keys (AudioPlayer._load_sound_library listing))).
Proof.
  split; intros listing.
  - unfold MemeManager._load_meme_library.
    assert (Hnil : NoDup (Py.keys (@nil (string * list MemeManager.Path))))
      by constructor.
    revert Hnil. generalize (@nil (string * list MemeManager.Path)).
    induction listing as [|e listing IH]; intros d Hd; cbn [fold_left];
      [exact Hd|].
    apply IH. destruct (MemeManager.entry_is_dir e); [|exact Hd].
    apply keys_set_nodup. exact Hd.
  - unfold AudioPlayer._load_sound_library.
    assert (Hnil : NoDup (Py.keys (@nil (string * AudioPlayer.Path))))
      by constructor.
    revert Hnil. generalize (@nil (string * AudioPlayer.Path)).
    induction listing as [|f listing IH]; intros d Hd; cbn [fold_left];
      [exact Hd|].
    apply IH.
    destruct (existsb (String.eqb (Py.lower (AudioPlayer.file_suffix f)))
                AudioPlayer.SUPPORTED_FORMATS); [|exact Hd].
    apply keys_set_nodup. exact Hd.
Qed.

Lemma get_in_keys {V} (d : Py.dict V) (k : string) (v : V) :
  Py.get d k = Some v -> In k (Py.keys d).
Proof.
  induction d as [|[k' v'] d IH]; cbn; [discriminate|].
  destruct (String.eqb_spec k k') as [-> | Hne]; auto.
Qed.

Lemma available_iff_nonempty_bucket
    (meme_cache : Py.dict (list MemeManager.Path)) (k : string) :
  NoDup (Py.keys meme_cache) ->
  (In k (MemeManager.list_available_emotions meme_cache) <->
   exists m ms, Py.get meme_cache k = Some (m :: ms)).
Proof.
  unfold MemeManager.list_available_emotions.
  induction meme_cache as [|[k' b] d IH]; intros Hnd.
  - cbn. split; [intros [] | intros (m & ms & H); discriminate H].
  - inversion Hnd as [|? ? Hnotin Hnd']; subst.
    specialize (IH Hnd'). cbn [filter snd Py.get].
    destruct (String.eqb_spec k k') as [-> | Hne].
    + destruct b as [|m ms]; cbn [map fst In].
      * split.
        -- intros Hin. exfalso. apply Hnotin.
           apply IH in Hin. destruct Hin as (m & ms & Hget).
           eapply get_in_keys; eauto.
        -- intros (m & ms & H). discriminate H.
      * split; [intros _; eauto | intros _; left; reflexivity].
    + destruct b as [|m ms]; cbn [map fst In].
      * exact IH.
      * rewrite IH. split; [intros [Heq | H]; [congruence | exact H] | auto].
Qed.

(** X24: In a dictionary, a meme is found for a label exactly when the
    lower-cased label or [neutral] is among [list_available_emotions]. *)
Theorem meme_found_iff_available
    (meme_cache : Py.dict (list MemeManager.Path)) (label : string)
    (rnd : nat) :
  NoDup (Py.keys meme_cache) ->
  (MemeManager.get_random_meme meme_cache label rnd <> None <->
   In (Py.lower label) (MemeManager.list_available_emotions meme_cache) \/
   In "neutral" (MemeManager.list_available_emotions meme_cache)).
Proof.
  intros Hnd.
  rewrite !(available_iff_nonempty_bucket meme_cache _ Hnd).
  unfold MemeManager.get_random_meme.
  destruct (Py.get meme_cache (Py.lower label)) as [[|m ms]|] eqn:Eexact.
  - destruct (Py.get meme_cache "neutral") as [[|n ns]|] eqn:Eneu.
    + split; [congruence|].
      intros [(a & b & H) | (a & b & H)]; discriminate H.
    + split; [intros _; right; eauto|]. intros _.
      destruct (choice_in rnd (n :: ns)) as (x & -> & _); discriminate.
    + split; [congruence|].
      intros [(a & b & H) | (a & b & H)]; discriminate H.
  - split; [intros _; left; eauto|]. intros _.
    destruct (choice_in rnd (m :: ms)) as (x & -> & _); discriminate.
  - destruct (Py.get meme_cache "neutral") as [[|n ns]|] eqn:Eneu.
    + split; [congruence|].
      intros [(a & b & H) | (a & b & H)]; discriminate H.
    + split; [intros _; right; eauto|]. intros _.
      destruct (choice_in rnd (n :: ns)) as (x & -> & _); discriminate.
    + split; [congruence|].
      intros [(a & b & H) | (a & b & H)]; discriminate H.
Qed.

Lemma meme_found_iff_available_witness :
  MemeManager.get_random_meme
    (MemeManager._load_meme_library
       [MemeManager.mkDirEntry "happy" true [(".png", "happy/a.png")];
        MemeManager.mkDirEntry "sad" true []]) "SAD" 3 <> None <->
  In (Py.lower "SAD")
     (MemeManager.list_available_emotions
        (MemeManager._load_meme_library
           [MemeManager.mkDirEntry "happy" true [(".png", "happy/a.png")];
            MemeManager.mkDirEntry "sad" true []])) \/
  In "neutral"
     (MemeManager.list_available_emotions
        (MemeManager._load_meme_library
           [MemeManager.mkDirEntry "happy" true [(".png", "happy/a.png")];
            MemeManager.mkDirEntry "sad" true []])).
Proof.
  apply (meme_found_iff_available
           (MemeManager._load_meme_library
              [MemeManager.mkDirEntry "happy" true [(".png", "happy/a.png")];
               MemeManager.mkDirEntry "sad" true []]) "SAD" 3).
  apply (proj1 loaded_keys_nodup).
Defined.

Lemma count_zero_iff_all_empty (meme_cache : Py.dict (list MemeManager.Path)) :
  MemeManager._count_memes meme_cache = 0%nat <->
  Forall (fun item => snd item = []) meme_cache.
Proof.
  unfold MemeManager._count_memes.
  induction meme_cache as [|[k b] d IH]; cbn.
  - split; [constructor | reflexivity].
  - split.
    + intros H. destruct b as [|m ms]; [|discriminate H].
      constructor; [reflexivity | apply IH; exact H].
    + intros H. inversion H as [|? ? Hb Hd]; subst. cbn in Hb. subst b.
      cbn. apply IH. exact Hd.
Qed.

Lemma available_nil_iff_all_empty
    (meme_cache : Py.dict (list MemeManager.Path)) :
  MemeManager.list_available_emotions meme_cache = [] <->
  Forall (fun item => snd item = []) meme_cache.
Proof.
  unfold MemeManager.list_available_emotions.
  induction meme_cache as [|[k b] d IH]; cbn.
  - split; [constructor | reflexivity].
  - destruct b as [|m ms]; cbn.
    + split.
      * intros H. constructor; [reflexivity | apply IH; exact H].
      * intros H. inversion H; subst. apply IH. assumption.
    + split; [discriminate|].
      intros H. inversion H as [|? ? Hb _]. discriminate Hb.
Qed.

Lemma get_all_empty (meme_cache : Py.dict (list MemeManager.Path))
    (k : string) (b : list MemeManager.Path) :
  Forall (fun item => snd item = []) meme_cache ->
  Py.get meme_cache k = Some b -> b = [].
Proof.
  intros HF. induction HF as [|[k' b'] d Hb _ IH]; cbn; [discriminate|].
  destruct (String.eqb k k'); [|exact IH].
  intros H. injection H as <-. exact Hb.
Qed.

(** X25: A library that counts zero memes has no available emotion, and then no
    label ever gets a meme: [display_meme] does nothing; conversely a
    library without available emotion counts zero. *)
Theorem empty_library_shows_nothing
    (meme_cache : Py.dict (list MemeManager.Path)) :
  (MemeManager._count_memes meme_cache = 0%nat <->
   MemeManager.list_available_emotions meme_cache = []) /\
  (MemeManager._count_memes meme_cache = 0%nat ->
   forall label duration rnd,
     MemeManager.get_random_meme meme_cache label rnd = None /\
     MemeManager.display_meme meme_cache label duration rnd = []).
Proof.
  split.
  - rewrite count_zero_iff_all_empty, available_nil_iff_all_empty. tauto.
  - intros H0 label duration rnd. apply count_zero_iff_all_empty in H0.
    assert (Hnone : MemeManager.get_random_meme meme_cache label rnd = None).
    { unfold MemeManager.get_random_meme.
      destruct (Py.get meme_cache (Py.lower label)) as [b|] eqn:E1;
        [apply (get_all_empty _ _ _ H0) in E1; subst b|];
        (destruct (Py.get meme_cache "neutral") as [n|] eqn:E2;
         [apply (get_all_empty _ _ _ H0) in E2; subst n|]); reflexivity. }
    split; [exact Hnone|].
    unfold MemeManager.display_meme. rewrite Hnone. reflexivity.
Qed.

(** X26: Over a loaded sound cache, [play_emotion_sound] either leaves the mixer
    alone or asks it to stop and to load a file of the listing that has a
    supported format, and then to play exactly when loading did not raise. *)
Theorem played_sound_comes_from_library
    (listing : list AudioPlayer.SoundFile) (is_playing : bool)
    (label : string) (loop : bool) (mixer : AudioPlayer.Mixer) :
  snd (AudioPlayer.play_emotion_sound (AudioPlayer._load_sound_library listing)
         is_playing label loop mixer) = [] \/
  exists f,
    In f listing /\ sound_supported f = true /\
    snd (AudioPlayer.play_emotion_sound
           (AudioPlayer._load_sound_library listing) is_playing label loop
           mixer) =
      ([AudioPlayer.MusicStop; AudioPlayer.MusicLoad (AudioPlayer.file_path f)]
       ++ if AudioPlayer.load_raises mixer then []
          else [AudioPlayer.MusicPlay (if loop then (-1)%Z else 0%Z)])%list.
Proof.
  unfold AudioPlayer.play_emotion_sound.
  destruct (AudioPlayer.sound_key (AudioPlayer._load_sound_library listing)
              label) as [k|] eqn:Ekey; [|left; reflexivity].
  destruct (Py.get (AudioPlayer._load_sound_library listing) k) as [p|]
    eqn:Eget; [right | left; reflexivity].
  destruct (sound_cache_origin listing k p Eget) as (f & Hin & Hsup & _ & <-).
  exists f. split; [exact Hin|]. split; [exact Hsup|]. apply play_calls.
Qed.
